(** * FlashFirmBackend: the balance and transfer relay of [server.js]

    A shallow embedding of [src/server.js] (the Express application, its two
    Solana helpers [getBalance] and [sendSolTransaction], the route handlers)
    and of the route table of [routes/authRoutes.js].

    JavaScript numbers are IEEE 754 binary64 values, which is what Rocq's
    primitive [float] is, so [amount * 1e9] and [lamports / 1e9] are the
    very operations the program performs.  The remote ledger node, the
    [@solana/web3.js] library and the controllers of
    [controllers/authControllers.js] are collaborators of the program: they
    enter as interfaces (type classes), and every run records the calls it
    makes to them in a trace. *)

From Stdlib Require Import Floats ZArith List String Bool Lia.
From stdpp Require Import base option list strings gmap.

Open Scope string_scope.
Open Scope list_scope.
Set Warnings "-register-all,-inexact-float".

(** ** JavaScript values *)

Module Js.

(** The values a JSON request body can hold. *)
Inductive JsValue : Type :=
| JUndefined
| JNull
| JBool (b : bool)
| JNum (x : float)
| JStr (s : string)
| JArr (xs : list JsValue)
| JObj (fields : list (string * JsValue)).

(** A thrown [Error]: the program only ever reads [error.message]. *)
Record JsError : Type := mkError { err_name : string; err_message : string }.

(** [new Error(msg)] *)
Definition Error_new (msg : string) : JsError :=
  {| err_name := "Error"; err_message := msg |}.

(** How an evaluation ends: with a value, or with a thrown error (a
    rejected promise, for an [async] function). *)
Inductive Completion (A : Type) : Type :=
| Normal (a : A)
| Thrown (e : JsError).
Arguments Normal {A} a.
Arguments Thrown {A} e.

(** ECMAScript [ToBoolean]: what [!x] negates. *)
Definition truthy (v : JsValue) : bool :=
  match v with
  | JUndefined | JNull => false
  | JBool b => b
  | JNum x => negb (PrimFloat.eqb x 0%float || PrimFloat.is_nan x)
  | JStr s => negb (String.eqb s "")
  | JArr _ | JObj _ => true
  end.

(** The parts of the language runtime that the program relies on and that
    are not arithmetic: parsing a string as a number, the string an array
    or object converts to, and [Uint8Array.from]. *)
Class Runtime : Type := {
  StringToNumber : string -> float;
  ToPrimitive_string : JsValue -> string;
  Uint8Array_from : JsValue -> Completion (list Z)
}.

(** ECMAScript [ToNumber], applied by [*] to its operands. *)
Definition ToNumber `{Runtime} (v : JsValue) : float :=
  match v with
  | JUndefined => PrimFloat.nan
  | JNull => 0%float
  | JBool true => 1%float
  | JBool false => 0%float
  | JNum x => x
  | JStr s => StringToNumber s
  | JArr _ | JObj _ => StringToNumber (ToPrimitive_string v)
  end.

(** [a || b] on strings read from [process.env]: an unset or empty
    variable falls through to the default. *)
Definition or_default (v : option string) (dflt : string) : string :=
  match v with
  | Some s => if String.eqb s "" then dflt else s
  | None => dflt
  end.

(** Property lookup on the parsed body: an absent key reads [undefined]. *)
Definition prop (o : gmap string JsValue) (k : string) : JsValue :=
  default JUndefined (o !! k).

(** Lookup in [req.params]. *)
Fixpoint assoc_lookup (k : string) (l : list (string * string)) : option string :=
  match l with
  | [] => None
  | (k', v) :: l' => if String.eqb k k' then Some v else assoc_lookup k l'
  end.

End Js.
Import Js.

(** ** The Solana library and the ledger node *)

(** [new Connection(endpoint, commitment)] performs no I/O: it records its
    arguments. *)
Record Connection : Type := mkConnection {
  endpoint : string;
  conn_commitment : option string
}.

(** What [connection.getLatestBlockhash()] resolves to. *)
Record BlockhashWithExpiry : Type := mkBlockhash {
  blockhash : string;
  lastValidBlockHeight : Z
}.

(** What [connection.confirmTransaction] resolves to; [sig_err] is the
    on-chain error of a transaction that was included but failed. *)
Record SignatureResult : Type := mkSignatureResult { sig_err : option string }.

(** The pure part of [@solana/web3.js] as [server.js] uses it.  Each
    constructor either throws or builds its object. *)
Class Web3 : Type := {
  PublicKey : Type;
  Keypair : Type;
  (** [new PublicKey(value)] *)
  PublicKey_new : JsValue -> Completion PublicKey;
  (** [Keypair.fromSecretKey(bytes)] *)
  Keypair_fromSecretKey : list Z -> Completion Keypair;
  (** [keypair.publicKey] *)
  Keypair_publicKey : Keypair -> PublicKey;
  (** what [SystemProgram.transfer] refuses to encode *)
  SystemProgram_transfer_check : PublicKey -> PublicKey -> float -> Completion unit;
  (** the endpoint check of the [Connection] constructor *)
  Connection_endpoint_check : string -> Completion unit
}.

(** The instruction [SystemProgram.transfer] returns, as the parameters it
    was built from. *)
Record TransactionInstruction `{Web3} : Type := mkTransfer {
  fromPubkey : PublicKey;
  toPubkey : PublicKey;
  lamports : float
}.

(** [SystemProgram.transfer({fromPubkey, toPubkey, lamports})] *)
Definition SystemProgram_transfer `{Web3} (from to : PublicKey) (amount : float)
  : Completion TransactionInstruction :=
  match SystemProgram_transfer_check from to amount with
  | Normal _ => Normal {| fromPubkey := from; toPubkey := to; lamports := amount |}
  | Thrown e => Thrown e
  end.

(** [new Connection(endpoint, commitment)] *)
Definition Connection_new `{Web3} (url : string) (c : option string)
  : Completion Connection :=
  match Connection_endpoint_check url with
  | Normal _ => Normal {| endpoint := url; conn_commitment := c |}
  | Thrown e => Thrown e
  end.

(** A legacy [Transaction] object. *)
Record Transaction `{Web3} : Type := mkTransaction {
  instructions : list TransactionInstruction;
  recentBlockhash : option string;
  feePayer : option PublicKey
}.

(** [new Transaction()] *)
Definition Transaction_new `{Web3} : Transaction :=
  {| instructions := []; recentBlockhash := None; feePayer := None |}.

(** [transaction.add(ix)] *)
Definition Transaction_add `{Web3} (t : Transaction) (ix : TransactionInstruction)
  : Transaction :=
  {| instructions := instructions t ++ [ix];
     recentBlockhash := recentBlockhash t;
     feePayer := feePayer t |}.

Definition set_recentBlockhash `{Web3} (t : Transaction) (b : string) : Transaction :=
  {| instructions := instructions t;
     recentBlockhash := Some b;
     feePayer := feePayer t |}.

Definition set_feePayer `{Web3} (t : Transaction) (p : PublicKey) : Transaction :=
  {| instructions := instructions t;
     recentBlockhash := recentBlockhash t;
     feePayer := Some p |}.

(** The remote node behind the RPC endpoint: a state machine the program
    does not control.  Each method answers and moves on to a next state. *)
Class Ledger `{Web3} : Type := {
  NodeState : Type;
  node_getBalance :
    Connection -> PublicKey -> NodeState -> Completion float * NodeState;
  node_getLatestBlockhash :
    Connection -> NodeState -> Completion BlockhashWithExpiry * NodeState;
  node_sendTransaction :
    Connection -> Transaction -> list Keypair -> NodeState ->
    Completion string * NodeState;
  node_confirmTransaction :
    Connection -> string -> string -> NodeState ->
    Completion SignatureResult * NodeState
}.

(** ** Effects: the trace of a request *)

(** What a request does to the outside: round trips to the node (with the
    answer received), lines written by [console.error], and runs of the
    token check. *)
Inductive Event `{Web3} : Type :=
| EvGetBalance (c : Connection) (pk : PublicKey) (r : Completion float)
| EvGetLatestBlockhash (c : Connection) (r : Completion BlockhashWithExpiry)
| EvSendTransaction (c : Connection) (tx : Transaction) (signers : list Keypair)
    (r : Completion string)
| EvConfirmTransaction (c : Connection) (signature : string) (level : string)
    (r : Completion SignatureResult)
| EvConsoleError (label : string) (e : JsError)
| EvAuthenticate (token : option string).

Record World `{Ledger} : Type := mkWorld {
  w_node : NodeState;
  w_trace : list Event
}.

(** The world a request starts in: the node in some state, nothing done yet. *)
Definition boot `{Ledger} (s : NodeState) : World :=
  {| w_node := s; w_trace := [] |}.

(** State and exception monad over the world. *)
Definition Eff `{Ledger} (A : Type) : Type := World -> Completion A * World.

Definition ret `{Ledger} {A} (a : A) : Eff A := fun w => (Normal a, w).

Definition throw `{Ledger} {A} (e : JsError) : Eff A := fun w => (Thrown e, w).

Definition bind `{Ledger} {A B} (m : Eff A) (k : A -> Eff B) : Eff B :=
  fun w =>
    match m w with
    | (Normal a, w') => k a w'
    | (Thrown e, w') => (Thrown e, w')
    end.

(** [try { m } catch (error) { h error }] *)
Definition try_catch `{Ledger} {A} (m : Eff A) (h : JsError -> Eff A) : Eff A :=
  fun w =>
    match m w with
    | (Normal a, w') => (Normal a, w')
    | (Thrown e, w') => h e w'
    end.

(** A library call that may throw but touches nothing. *)
Definition lift `{Ledger} {A} (c : Completion A) : Eff A := fun w => (c, w).

Definition emit `{Ledger} (e : Event) : Eff unit :=
  fun w => (Normal tt, {| w_node := w_node w; w_trace := w_trace w ++ [e] |}).

Declare Scope eff_scope.
Delimit Scope eff_scope with eff.
Notation "x <- m ;; k" := (bind m (fun x => k))
  (at level 100, m at next level, right associativity) : eff_scope.
Notation "m ;;; k" := (bind m (fun _ => k))
  (at level 100, right associativity) : eff_scope.
Open Scope eff_scope.

(** One round trip: ask the node, log the call with its answer, and
    complete the way the node answered. *)
Definition rpc `{Ledger} {A}
    (call : NodeState -> Completion A * NodeState)
    (log : Completion A -> Event) : Eff A :=
  fun w =>
    let '(r, s') := call (w_node w) in
    (r, {| w_node := s'; w_trace := w_trace w ++ [log r] |}).

(** [console.error(label, error)] *)
Definition console_error `{Ledger} (label : string) (e : JsError) : Eff unit :=
  emit (EvConsoleError label e).

(** [await connection.getBalance(pk)] and the other methods of a connection. *)
Definition connection_getBalance `{Ledger} (c : Connection) (pk : PublicKey)
  : Eff float :=
  rpc (node_getBalance c pk) (EvGetBalance c pk).

Definition connection_getLatestBlockhash `{Ledger} (c : Connection)
  : Eff BlockhashWithExpiry :=
  rpc (node_getLatestBlockhash c) (EvGetLatestBlockhash c).

Definition connection_sendTransaction `{Ledger} (c : Connection)
    (tx : Transaction) (signers : list Keypair) : Eff string :=
  rpc (node_sendTransaction c tx signers) (EvSendTransaction c tx signers).

Definition connection_confirmTransaction `{Ledger} (c : Connection)
    (signature level : string) : Eff SignatureResult :=
  rpc (node_confirmTransaction c signature level)
      (EvConfirmTransaction c signature level).

(** ** The program: [server.js] *)

(** The HTTP side of a request and of its answer. *)
Inductive Method : Type := GET | POST | PATCH | DELETE | OPTIONS.

Definition Method_eqb (a b : Method) : bool :=
  match a, b with
  | GET, GET | POST, POST | PATCH, PATCH | DELETE, DELETE | OPTIONS, OPTIONS => true
  | _, _ => false
  end.

Record Request : Type := mkRequest {
  req_method : Method;
  req_path : list string;               (* the path, split at [/] *)
  req_token : option string;            (* the bearer credential, if any *)
  req_body : gmap string JsValue;       (* [req.body], parsed by [express.json()] *)
  req_params : list (string * string);  (* [req.params] *)
  req_user : option string              (* [req.user.username], once authenticated *)
}.

Record Response : Type := mkResponse {
  res_status : Z;
  res_json : JsValue
}.

(** What a middleware or handler does with a request: answer it, or call
    [next()]. *)
Inductive Outcome : Type :=
| Next (req : Request)
| Sent (res : Response).

Definition mainnet : string := "https://api.mainnet-beta.solana.com".

(** What [routes/authRoutes.js] imports from
    [controllers/authControllers.js]: the controllers it mounts and the
    verification rule of the collaborator that issues session tokens. *)
Class AuthControllers `{Ledger} : Type := {
  (** the subject of a valid, non-expired token *)
  authorize : option string -> option string;
  (** the answer to a request whose token is not accepted *)
  auth_rejection : option string -> Response;
  signup : Request -> Eff Outcome;
  login : Request -> Eff Outcome;
  logout : Request -> Eff Outcome;
  checkBalance : Request -> Eff Outcome;
  sendTransaction : Request -> Eff Outcome;
  getTransactions : Request -> Eff Outcome;
  updateProfile : Request -> Eff Outcome;
  deleteProfile : Request -> Eff Outcome;
  getUserProfile : Request -> Eff Outcome;
  verifyToken : Request -> Eff Outcome;
  getTransactionHistory : Request -> Eff Outcome;
  deleteTransaction : Request -> Eff Outcome
}.

Section Server.

Context `{RT : Runtime} `{W : Web3} `{L : !Ledger} `{AC : !AuthControllers}.

(** [process.env], read but never written by the program. *)
Variable env : gmap string string.

Definition Handler : Type := Request -> Eff Outcome.

(** [getBalance], lines 49-60. *)
Definition getBalance (publicKey : JsValue) : Eff float :=
  try_catch
    (connection <- lift (Connection_new
                           (or_default (env !! "SOLANA_RPC_URL") mainnet) None);;
     pubKeyObj <- lift (PublicKey_new publicKey);;
     balanceInLamports <- connection_getBalance connection pubKeyObj;;
     ret (balanceInLamports / 1e9)%float)
    (fun error =>
       console_error "Error fetching balance:" error;;;
       throw error).

(** The [try] block of [sendSolTransaction], lines 66-91. *)
Definition sendSolTransaction_body
    (senderAddress senderPrivateKey recipientAddress amount : JsValue)
  : Eff string :=
  secretKey <- lift (Uint8Array_from senderPrivateKey);;
  senderKeypair <- lift (Keypair_fromSecretKey secretKey);;
  connection <- lift (Connection_new
                        (or_default (env !! "SOLANA_RPC_URL") mainnet)
                        (Some "confirmed"));;
  recipientPublicKey <- lift (PublicKey_new recipientAddress);;
  ix <- lift (SystemProgram_transfer
                (Keypair_publicKey senderKeypair)
                recipientPublicKey
                (ToNumber amount * 1e9)%float);;
  let transaction := Transaction_add Transaction_new ix in
  anchor <- connection_getLatestBlockhash connection;;
  let transaction := set_recentBlockhash transaction (blockhash anchor) in
  let transaction := set_feePayer transaction (Keypair_publicKey senderKeypair) in
  signature <- connection_sendTransaction connection transaction [senderKeypair];;
  _ <- connection_confirmTransaction connection signature "confirmed";;
  ret signature.

(** [sendSolTransaction], lines 64-96. *)
Definition sendSolTransaction
    (senderAddress senderPrivateKey recipientAddress amount : JsValue)
  : Eff string :=
  try_catch
    (sendSolTransaction_body senderAddress senderPrivateKey recipientAddress amount)
    (fun error =>
       console_error "Transaction error:" error;;;
       throw (Error_new ("Transaction failed: " +:+ err_message error))).

(** The handler of [app.get('/api/check-balance/:publicKey')],
    lines 101-111. *)
Definition check_balance_handler : Handler := fun req =>
  let publicKey :=
    match assoc_lookup "publicKey" (req_params req) with
    | Some s => JStr s
    | None => JUndefined
    end in
  try_catch
    (balance <- getBalance publicKey;;
     ret (Sent {| res_status := 200;
                  res_json := JObj [("balance", JNum balance)] |}))
    (fun error =>
       console_error "Balance check error:" error;;;
       ret (Sent {| res_status := 500;
                    res_json := JObj [("error", JStr "Failed to retrieve balance")] |})).

Definition missing_fields : Response :=
  {| res_status := 400;
     res_json :=
       JObj [("error", JStr "Missing required fields");
             ("details",
              JStr "Need senderAddress, senderPrivateKey, recipientAddress, and amount")] |}.

(** The two answers of the [try]/[catch] of lines 124-130. *)
Definition transfer_sent (signature : string) : Response :=
  {| res_status := 200;
     res_json := JObj [("success", JBool true); ("signature", JStr signature)] |}.

Definition transaction_failed (err : JsError) : Response :=
  {| res_status := 500;
     res_json := JObj [("error", JStr "Transaction failed");
                       ("message", JStr (err_message err))] |}.

(** The handler of [app.post('/auth/send')], lines 114-131. *)
Definition send_handler : Handler := fun req =>
  let senderAddress := prop (req_body req) "senderAddress" in
  let senderPrivateKey := prop (req_body req) "senderPrivateKey" in
  let recipientAddress := prop (req_body req) "recipientAddress" in
  let amount := prop (req_body req) "amount" in
  if negb (truthy senderAddress) || negb (truthy senderPrivateKey)
     || negb (truthy recipientAddress) || negb (truthy amount)
  then ret (Sent missing_fields)
  else
    try_catch
      (transactionResult <-
         sendSolTransaction senderAddress senderPrivateKey recipientAddress amount;;
       ret (Sent (transfer_sent transactionResult)))
      (fun err =>
         console_error "Transaction sending error:" err;;;
         ret (Sent (transaction_failed err))).

(** *** Routing *)

(** A segment of a route path: a literal, or a [:name] parameter. *)
Inductive Seg : Type :=
| Lit (s : string)
| Param (name : string).

Fixpoint match_path (pat : list Seg) (path : list string)
  : option (list (string * string)) :=
  match pat, path with
  | [], [] => Some []
  | Lit s :: pat', x :: path' =>
      if String.eqb s x then match_path pat' path' else None
  | Param n :: pat', x :: path' =>
      match match_path pat' path' with
      | Some ps => Some ((n, x) :: ps)
      | None => None
      end
  | _, _ => None
  end.

Fixpoint strip_prefix (prefix path : list string) : option (list string) :=
  match prefix, path with
  | [], _ => Some path
  | p :: prefix', x :: path' =>
      if String.eqb p x then strip_prefix prefix' path' else None
  | _ :: _, [] => None
  end.

Record Route : Type := mkRoute {
  r_method : Method;
  r_pattern : list Seg;
  r_handlers : list Handler
}.

(** An entry of the application's stack: a route of its own, or a router
    mounted under a prefix by [app.use]. *)
Inductive Layer : Type :=
| LRoute (r : Route)
| LUse (prefix : list string) (router : list Route).

Definition with_params (req : Request) (ps : list (string * string)) : Request :=
  {| req_method := req_method req; req_path := req_path req;
     req_token := req_token req; req_body := req_body req;
     req_params := ps; req_user := req_user req |}.

Definition with_path (req : Request) (p : list string) : Request :=
  {| req_method := req_method req; req_path := p;
     req_token := req_token req; req_body := req_body req;
     req_params := req_params req; req_user := req_user req |}.

Definition with_user (req : Request) (u : string) : Request :=
  {| req_method := req_method req; req_path := req_path req;
     req_token := req_token req; req_body := req_body req;
     req_params := req_params req; req_user := Some u |}.

(** The handlers of one route, in order; each runs only if the one before
    it called [next()]. *)
Fixpoint run_chain (hs : list Handler) (req : Request) : Eff Outcome :=
  match hs with
  | [] => ret (Next req)
  | h :: hs' =>
      o <- h req;;
      match o with
      | Next req' => run_chain hs' req'
      | Sent res => ret (Sent res)
      end
  end.

Definition run_route (r : Route) (req : Request) : Eff Outcome :=
  if Method_eqb (r_method r) (req_method req) then
    match match_path (r_pattern r) (req_path req) with
    | Some ps => run_chain (r_handlers r) (with_params req ps)
    | None => ret (Next req)
    end
  else ret (Next req).

Fixpoint run_routes (rs : list Route) (req : Request) : Eff Outcome :=
  match rs with
  | [] => ret (Next req)
  | r :: rs' =>
      o <- run_route r req;;
      match o with
      | Next req' => run_routes rs' req'
      | Sent res => ret (Sent res)
      end
  end.

Definition run_layer (l : Layer) (req : Request) : Eff Outcome :=
  match l with
  | LRoute r => run_route r req
  | LUse prefix router =>
      match strip_prefix prefix (req_path req) with
      | Some rest =>
          o <- run_routes router (with_path req rest);;
          match o with
          | Next req' => ret (Next (with_path req' (req_path req)))
          | Sent res => ret (Sent res)
          end
      | None => ret (Next req)
      end
  end.

Fixpoint run_layers (ls : list Layer) (req : Request) : Eff Outcome :=
  match ls with
  | [] => ret (Next req)
  | l :: ls' =>
      o <- run_layer l req;;
      match o with
      | Next req' => run_layers ls' req'
      | Sent res => ret (Sent res)
      end
  end.

(** Modelled from the spec: [authenticateToken], the Authorization Gate, is
    defined in [controllers/authControllers.js], which is not among the
    sources.  By section 4.4 of the specification it validates the bearer
    token, passes the request on with the subject attached when the token
    is valid, and otherwise rejects the call before anything else runs. *)
Definition authenticateToken : Handler := fun req =>
  emit (EvAuthenticate (req_token req));;;
  match authorize (req_token req) with
  | Some subject => ret (Next (with_user req subject))
  | None => ret (Sent (auth_rejection (req_token req)))
  end.

(** The inline handler of [router.get("/dashboard", ...)]. *)
Definition dashboard_handler : Handler := fun req =>
  match req_user req with
  | Some username =>
      ret (Sent {| res_status := 200;
                   res_json :=
                     JObj [("message",
                            JStr ("Welcome to your dashboard, " +:+ username +:+ "!"))] |})
  | None =>
      throw {| err_name := "TypeError";
               err_message := "Cannot read properties of undefined (reading 'username')" |}
  end.

(** [routes/authRoutes.js]: the router, route by route. *)
Definition authRoutes : list Route :=
  [ mkRoute POST [Lit "signup"] [signup];
    mkRoute POST [Lit "login"] [login];
    mkRoute POST [Lit "logout"] [logout];
    mkRoute GET [Lit "dashboard"] [authenticateToken; dashboard_handler];
    mkRoute POST [Lit "check-balance"] [authenticateToken; checkBalance];
    mkRoute POST [Lit "send"] [authenticateToken; sendTransaction];
    mkRoute GET [Lit "transactions"; Param "address"] [authenticateToken; getTransactions];
    mkRoute GET [Lit "balance"; Param "address"] [authenticateToken; checkBalance];
    mkRoute GET [Lit "transactions"] [getTransactionHistory];
    mkRoute DELETE [Lit "transaction"; Param "id"] [deleteTransaction];
    mkRoute GET [Lit "profile"] [authenticateToken; getUserProfile];
    mkRoute DELETE [Lit "profile"] [authenticateToken; deleteProfile];
    mkRoute GET [Lit "user"; Param "id"] [verifyToken; getUserProfile];
    mkRoute PATCH [Lit "profile"] [authenticateToken; updateProfile] ].

(** The handler of [app.get('/')]. *)
Definition root_handler : Handler := fun _ =>
  ret (Sent {| res_status := 200;
               res_json := JStr "🚀 Solana Wallet Backend is Live!" |}).

(** The stack of [server.js] in registration order, lines 99-135.  The
    middleware registered before it (CORS, JSON body parsing, security
    headers, request logging, cookie parsing) hands every request on
    unchanged and is left out. *)
Definition app_layers : list Layer :=
  [ LUse ["auth"] authRoutes;
    LRoute (mkRoute GET [Lit "api"; Lit "check-balance"; Param "publicKey"]
              [check_balance_handler]);
    LRoute (mkRoute POST [Lit "auth"; Lit "send"] [send_handler]);
    LRoute (mkRoute GET [] [root_handler]) ].

(** Express's answer when no layer responds. *)
Definition not_found : Response :=
  {| res_status := 404; res_json := JUndefined |}.

(** The application: the stack, then the global error handler of
    lines 138-141 for whatever a layer throws. *)
Definition app (req : Request) : Eff Response :=
  try_catch
    (o <- run_layers app_layers req;;
     match o with
     | Sent res => ret res
     | Next _ => ret not_found
     end)
    (fun err =>
       console_error "Unhandled error:" err;;;
       ret {| res_status := 500;
              res_json := JObj [("message", JStr "Something went wrong!");
                                ("error", JStr (err_message err))] |}).

End Server.

(** ** Vocabulary of the properties *)

(** The request passes the check of line 117: the four fields are there
    and none of them is falsy. *)
Definition fields_present (req : Request) : bool :=
  truthy (prop (req_body req) "senderAddress")
  && truthy (prop (req_body req) "senderPrivateKey")
  && truthy (prop (req_body req) "recipientAddress")
  && truthy (prop (req_body req) "amount").

(** The error [sendSolTransaction] rethrows for the error it caught. *)
Definition wrapped (e : JsError) : JsError :=
  Error_new ("Transaction failed: " +:+ err_message e).

(** The transaction [sendSolTransaction] assembles for a signer, a
    recipient, a number of lamports and an anchor. *)
Definition built_transaction `{Web3} (kp : Keypair) (recipient : PublicKey)
    (amount : float) (anchor : BlockhashWithExpiry) : Transaction :=
  {| instructions := [ {| fromPubkey := Keypair_publicKey kp;
                          toPubkey := recipient;
                          lamports := amount |} ];
     recentBlockhash := Some (blockhash anchor);
     feePayer := Some (Keypair_publicKey kp) |}.

(** The connection [getBalance] opens, line 51. *)
Definition balance_connection (env : gmap string string) : Connection :=
  {| endpoint := or_default (env !! "SOLANA_RPC_URL") mainnet;
     conn_commitment := None |}.

(** The connection [sendSolTransaction] opens, lines 68-71. *)
Definition transfer_connection (env : gmap string string) : Connection :=
  {| endpoint := or_default (env !! "SOLANA_RPC_URL") mainnet;
     conn_commitment := Some "confirmed" |}.

(** The run of a request that passed the check of line 117 gets as far
    as the submission: the secret key converts to bytes from which the
    library builds the signer [kp], the connection opens, the library
    builds the recipient key [rcp] and the instruction, and the node hands
    out the anchor [anchor], moving to state [s1]. *)
Definition reaches_submission `{Runtime} `{Ledger} (env : gmap string string)
    (req : Request) (s : NodeState) (kp : Keypair) (rcp : PublicKey)
    (anchor : BlockhashWithExpiry) (s1 : NodeState) : Prop :=
  (exists secretKey,
      Uint8Array_from (prop (req_body req) "senderPrivateKey") = Normal secretKey
      /\ Keypair_fromSecretKey secretKey = Normal kp)
  /\ Connection_endpoint_check (endpoint (transfer_connection env)) = Normal tt
  /\ PublicKey_new (prop (req_body req) "recipientAddress") = Normal rcp
  /\ SystemProgram_transfer_check (Keypair_publicKey kp) rcp
       (ToNumber (prop (req_body req) "amount") * 1e9)%float = Normal tt
  /\ node_getLatestBlockhash (transfer_connection env) s = (Normal anchor, s1).


(** ** A sample deployment

    Concrete collaborators on which the program can be run.  The key
    library is reproduced where its behaviour can be computed (base58
    addresses, the sizes it checks, the lamports it can encode) and is
    otherwise restricted: it accepts only what [@solana/web3.js] accepts.
    The node answers from a script. *)

Module Sample.

(** ECMAScript [ToUint8]: truncate towards zero, then modulo 256; [NaN],
    the zeros and the infinities give 0. *)
Definition to_uint8 (x : float) : Z :=
  match Prim2SF x with
  | S754_finite sg m e =>
      let magnitude :=
        if (0 <=? e)%Z then (Z.pos m * 2 ^ e)%Z else (Z.pos m / 2 ^ (- e))%Z in
      ((if sg then - magnitude else magnitude) mod 256)%Z
  | _ => 0%Z
  end.

(** The number a byte is written as in JSON. *)
Definition number_of_byte (z : Z) : float := PrimFloat.of_uint63 (Uint63.of_Z z).

(** The value of a string of at most 15 decimal digits. *)
Fixpoint digits_value (s : string) (acc : Z) : option Z :=
  match s with
  | EmptyString => Some acc
  | String c s' =>
      let n := Z.of_nat (Ascii.nat_of_ascii c) in
      if (48 <=? n)%Z && (n <=? 57)%Z
      then digits_value s' (10 * acc + (n - 48))%Z
      else None
  end.

(** The digit a character of a string stands for when [Uint8Array.from]
    iterates over the string; any other character converts to 0. *)
Definition byte_of_char (c : Ascii.ascii) : Z :=
  let n := Z.of_nat (Ascii.nat_of_ascii c) in
  if (48 <=? n)%Z && (n <=? 57)%Z then (n - 48)%Z else 0%Z.

(** The runtime on the values the sample requests hold: numbers,
    booleans, [null], arrays of bytes, and strings of digits.  Numeric
    strings of another form (sign, fraction, exponent, white space) are
    not parsed, arrays and objects convert to numbers as an object does,
    and an object is taken to have no [length]. *)
Definition runtime : Runtime := {|
  StringToNumber := fun s =>
    match digits_value s 0 with
    | Some z =>
        if (String.length s <=? 15)%nat then number_of_byte z else PrimFloat.nan
    | None => PrimFloat.nan
    end;
  ToPrimitive_string := fun v =>
    match v with
    | JArr [] => ""
    | JArr [JStr s] => s
    | _ => "[object Object]"
    end;
  Uint8Array_from := fun v =>
    match v with
    | JArr xs =>
        Normal (map (fun x =>
                       match x with
                       | JNum n => to_uint8 n
                       | JBool true => 1%Z
                       | _ => 0%Z
                       end) xs)
    | JStr s => Normal (map byte_of_char (list_ascii_of_string s))
    | _ => Normal []
    end
|}.

(** Base58, the alphabet of addresses. *)
Definition base58_alphabet : string :=
  "123456789ABCDEFGHJKLMNPQRSTUVWXYZabcdefghijkmnopqrstuvwxyz".

Fixpoint index_of (c : Ascii.ascii) (s : string) (i : Z) : option Z :=
  match s with
  | EmptyString => None
  | String c' s' => if Ascii.eqb c c' then Some i else index_of c s' (i + 1)%Z
  end.

Fixpoint base58_value (s : string) (acc : Z) : option Z :=
  match s with
  | EmptyString => Some acc
  | String c s' =>
      match index_of c base58_alphabet 0 with
      | Some d => base58_value s' (58 * acc + d)%Z
      | None => None
      end
  end.

Fixpoint leading_ones (s : string) : nat :=
  match s with
  | String c s' =>
      if (Ascii.nat_of_ascii c =? 49)%nat then S (leading_ones s') else 0%nat
  | EmptyString => 0%nat
  end.

(** The big-endian bytes of a number. *)
Fixpoint bytes_of (fuel : nat) (n : Z) (acc : list Z) : list Z :=
  match fuel with
  | O => acc
  | S fuel' =>
      if (n =? 0)%Z then acc else bytes_of fuel' (n / 256)%Z ((n mod 256)%Z :: acc)
  end.

(** [bs58.decode]: a leading [1] is a zero byte; [None] on a character
    outside the alphabet. *)
Definition base58_decode (s : string) : option (list Z) :=
  match base58_value s 0 with
  | Some n => Some (repeat 0%Z (leading_ones s) ++ bytes_of (String.length s) n [])
  | None => None
  end.

Fixpoint bytes_eqb (a b : list Z) : bool :=
  match a, b with
  | [], [] => true
  | x :: a', y :: b' => (x =? y)%Z && bytes_eqb a' b'
  | _, _ => false
  end.

(** Two Ed25519 key pairs (seed, public key): the first two test vectors
    of RFC 8032. *)
Definition seed1 : list Z :=
  [157; 97; 177; 157; 239; 253; 90; 96; 186; 132; 74; 244; 146; 236; 44; 196;
   68; 73; 197; 105; 123; 50; 105; 25; 112; 59; 172; 3; 28; 174; 127; 96]%Z.

Definition public1 : list Z :=
  [215; 90; 152; 1; 130; 177; 10; 183; 213; 75; 254; 211; 201; 100; 7; 58;
   14; 225; 114; 243; 218; 166; 35; 37; 175; 2; 26; 104; 247; 7; 81; 26]%Z.

Definition seed2 : list Z :=
  [76; 205; 8; 155; 40; 255; 150; 218; 157; 182; 195; 70; 236; 17; 78; 15;
   91; 138; 49; 159; 53; 171; 166; 36; 218; 140; 246; 237; 79; 184; 166; 251]%Z.

Definition public2 : list Z :=
  [61; 64; 23; 195; 232; 67; 137; 90; 146; 183; 10; 167; 77; 27; 126; 188;
   156; 152; 44; 207; 46; 196; 150; 140; 192; 205; 85; 241; 42; 244; 102; 12]%Z.

(** The public key of a seed, for the seeds the sample knows. *)
Definition ed25519_public (seed : list Z) : option (list Z) :=
  if bytes_eqb seed seed1 then Some public1
  else if bytes_eqb seed seed2 then Some public2
  else None.

(** The lamports [SystemProgram.transfer] encodes here: the integers from
    0 to 2^53 - 1.  (For [0 <= x < 2^52], adding and subtracting 2^52
    rounds [x] to an integer.) *)
Definition encodable (x : float) : bool :=
  (0 <=? x)%float && (x <=? 9007199254740991)%float
  && ((4503599627370496 <=? x)%float
      || (x + 4503599627370496 - 4503599627370496 =? x)%float).

(** The key library.  An address is a base58 string of 32 bytes.  A
    secret key is 64 bytes whose second half is the public key of the
    first; the sample can tell so for the seeds it knows and refuses the
    others.  A transfer is refused when its lamports are negative,
    fractional, [NaN] or beyond 2^53; the message of that refusal, which
    in the library quotes the number, is not reproduced. *)
Definition unencodable : JsError :=
  {| err_name := "RangeError"; err_message := "lamports cannot be encoded" |}.

Definition web3 : Web3 := {|
  PublicKey := list Z;
  Keypair := list Z;
  PublicKey_new := fun v =>
    match v with
    | JStr s =>
        match base58_decode s with
        | Some bs =>
            if (length bs =? 32)%nat then Normal bs
            else Thrown (Error_new "Invalid public key input")
        | None => Thrown (Error_new "Non-base58 character")
        end
    | _ => Thrown (Error_new "Invalid public key input")
    end;
  Keypair_fromSecretKey := fun bs =>
    if (length bs =? 64)%nat then
      match ed25519_public (take 32 bs) with
      | Some pk =>
          if bytes_eqb pk (drop 32 bs) then Normal bs
          else Thrown (Error_new "provided secretKey is invalid")
      | None => Thrown (Error_new "provided secretKey is invalid")
      end
    else Thrown (Error_new "bad secret key size");
  Keypair_publicKey := fun kp => drop 32 kp;
  SystemProgram_transfer_check := fun _ _ amount =>
    if encodable amount then Normal tt else Thrown unencodable;
  Connection_endpoint_check := fun url =>
    if String.prefix "http:" url || String.prefix "https:" url then Normal tt
    else Thrown {| err_name := "TypeError";
                   err_message := "Endpoint URL must start with `http:` or `https:`." |}
|}.

(** A node that answers every call from a fixed script and counts the
    calls it served. *)
Record Script : Type := mkScript {
  s_balance : Completion float;
  s_anchor : Completion BlockhashWithExpiry;
  s_send : Completion string;
  s_confirm : Completion SignatureResult;
  s_calls : nat
}.

Definition served (s : Script) : Script :=
  {| s_balance := s_balance s; s_anchor := s_anchor s; s_send := s_send s;
     s_confirm := s_confirm s; s_calls := S (s_calls s) |}.

Definition ledger : @Ledger web3 := {|
  NodeState := Script;
  node_getBalance := fun _ _ s => (s_balance s, served s);
  node_getLatestBlockhash := fun _ s => (s_anchor s, served s);
  node_sendTransaction := fun _ _ _ s => (s_send s, served s);
  node_confirmTransaction := fun _ _ _ s => (s_confirm s, served s)
|}.

Definition anchor1 : BlockhashWithExpiry :=
  {| blockhash := "EkSnNWid2cvwEVnVx9aBqawnmiCNiDgp3gUdkDPTKN1N";
     lastValidBlockHeight := 3090 |}.

Definition sig1 : string :=
  "5VERv8NMvzbJMEkV8xnrLkEaWRtSz9CosKDYjCJjBRnbJLgp8uirBgmQpjKhoR4tjF3ZpRzrFmBV6UjKdiSZkQUW".

(** A healthy node: 2.5 SOL on every account, every transfer accepted. *)
Definition healthy : Script :=
  {| s_balance := Normal 2500000000%float;
     s_anchor := Normal anchor1;
     s_send := Normal sig1;
     s_confirm := Normal {| sig_err := None |};
     s_calls := 0 |}.

Definition not_confirmed : string :=
  "Transaction was not confirmed in 30.00 seconds. It is unknown if it succeeded or failed.".

(** A node that rejects the submission. *)
Definition rejecting (msg : string) : Script :=
  {| s_balance := Normal 2500000000%float;
     s_anchor := Normal anchor1;
     s_send := Thrown {| err_name := "SendTransactionError"; err_message := msg |};
     s_confirm := Normal {| sig_err := None |};
     s_calls := 0 |}.

(** A node that accepts the submission and lets the confirmation time out. *)
Definition timing_out (msg : string) : Script :=
  {| s_balance := Normal 2500000000%float;
     s_anchor := Normal anchor1;
     s_send := Normal sig1;
     s_confirm := Thrown {| err_name := "TransactionExpiredTimeoutError";
                            err_message := msg |};
     s_calls := 0 |}.

(** The address of [public1], and another address. *)
Definition S1 : string := "FVen3X669xLzsi6N2V91DoiyzHzg1uAgqiT8jZ9nS96Z".
Definition R1 : string := "7xKXtg2CW87d97TXJSDpbD5jBkheTqA83TZRuJosgAsU".

(** A 64-byte secret key, as the JSON array of its bytes. *)
Definition key1 : JsValue := JArr (map (fun z => JNum (number_of_byte z)) (seed1 ++ public1)).

(** A malformed secret key: 3 bytes. *)
Definition short_key : JsValue := JArr [JNum 1%float; JNum 2%float; JNum 3%float].

Definition transfer_body (sender : string) (key amount : JsValue)
  : gmap string JsValue :=
  <["senderAddress" := JStr sender]>
    (<["senderPrivateKey" := key]>
       (<["recipientAddress" := JStr R1]>
          (<["amount" := amount]> ∅))).

(** [POST /auth/send] as it reaches the application's own handler. *)
Definition send_request (body : gmap string JsValue) : Request :=
  {| req_method := POST; req_path := ["auth"; "send"]; req_token := None;
     req_body := body; req_params := []; req_user := None |}.

(** [GET /api/check-balance/:publicKey] with no credential at all. *)
Definition balance_request (address : string) : Request :=
  {| req_method := GET; req_path := ["api"; "check-balance"; address];
     req_token := None; req_body := ∅; req_params := []; req_user := None |}.

(** A submit call that leaves [senderPrivateKey] out. *)
Definition body_without_key : gmap string JsValue :=
  <["senderAddress" := JStr S1]>
    (<["recipientAddress" := JStr R1]>
       (<["amount" := JNum 1.5%float]> ∅)).

(** The signer and the recipient the library builds from [key1] and [R1]. *)
Definition signer1 : list Z := seed1 ++ public1.
Definition recipient1 : list Z := default [] (base58_decode R1).

(** The public key of [signer1]. *)
Definition payer1 : list Z := public1.

(** The account the sample balance query asks about. *)
Definition account1 : @PublicKey web3 := public1.


(** The world a sample request starts in, and a world it ends in. *)
Definition start (s : Script) : @World web3 ledger := @boot web3 ledger s.

Definition world (s : Script) (t : list (@Event web3)) : @World web3 ledger :=
  @mkWorld web3 ledger s t.

(** The connection of a sample transfer, and the transaction it submits
    for a number of lamports. *)
Definition c1 : Connection := transfer_connection ∅.

Definition paid (amount : float) : @Transaction web3 :=
  @built_transaction web3 signer1 recipient1 amount anchor1.

(** The sample submit call of 1.5 SOL from [S1] to [R1]. *)
Definition req1 : Request := send_request (transfer_body S1 key1 (JNum 1.5%float)).

(** The handlers of the program on the sample deployment. *)
Definition post_send (env : gmap string string) (req : Request)
  : @World web3 ledger -> Completion Outcome * @World web3 ledger :=
  @send_handler runtime web3 ledger env req.

(** Stand-ins for the controllers, and a token rule with one session. *)
Definition stub : Request -> @Eff web3 ledger Outcome :=
  fun _ => @ret web3 ledger _ (Sent {| res_status := 501; res_json := JNull |}).

Definition controllers : @AuthControllers web3 ledger := {|
  authorize := fun tok =>
    match tok with
    | Some t => if String.eqb t "session-of-alice" then Some "alice" else None
    | None => None
    end;
  auth_rejection := fun _ =>
    {| res_status := 401; res_json := JObj [("message", JStr "Unauthorized")] |};
  signup := stub; login := stub; logout := stub;
  checkBalance := stub; sendTransaction := stub; getTransactions := stub;
  updateProfile := stub; deleteProfile := stub; getUserProfile := stub;
  verifyToken := stub; getTransactionHistory := stub; deleteTransaction := stub
|}.

(** The application on the sample deployment. *)
Definition serve (env : gmap string string) (req : Request)
  : @World web3 ledger -> Completion Response * @World web3 ledger :=
  @app runtime web3 ledger controllers env req.

End Sample.

(** ** Vocabulary of the further properties *)

(** The two answers of the balance handler, lines 106 and 109. *)
Definition balance_found (balance : float) : Response :=
  {| res_status := 200; res_json := JObj [("balance", JNum balance)] |}.

Definition balance_failed : Response :=
  {| res_status := 500;
     res_json := JObj [("error", JStr "Failed to retrieve balance")] |}.

(** The round trips to the node, by method. *)
Inductive RpcKind : Type := Balance | Anchor | Submit | Confirm.

Definition rpc_kind `{Web3} (e : Event) : option RpcKind :=
  match e with
  | EvGetBalance _ _ _ => Some Balance
  | EvGetLatestBlockhash _ _ => Some Anchor
  | EvSendTransaction _ _ _ _ => Some Submit
  | EvConfirmTransaction _ _ _ _ => Some Confirm
  | EvConsoleError _ _ | EvAuthenticate _ => None
  end.

(** The round trips of a trace, in the order they were made. *)
Definition round_trips `{Web3} (t : list Event) : list RpcKind := omap rpc_kind t.

(** The routes of [routes/authRoutes.js] whose first handler is
    [authenticateToken], lines 173-189. *)
Definition gated_routes : list (Method * list Seg) :=
  [ (GET, [Lit "dashboard"]);
    (POST, [Lit "check-balance"]);
    (POST, [Lit "send"]);
    (GET, [Lit "transactions"; Param "address"]);
    (GET, [Lit "balance"; Param "address"]);
    (GET, [Lit "profile"]);
    (DELETE, [Lit "profile"]);
    (PATCH, [Lit "profile"]) ].

(** ** Faults on the sample deployment *)

Module Faults.

Import Sample.

Definition node_down : JsError :=
  {| err_name := "TypeError"; err_message := "fetch failed" |}.

(** A node that cannot be reached for an anchor. *)
Definition anchor_down : Script :=
  {| s_balance := Normal 2500000000%float;
     s_anchor := Thrown node_down;
     s_send := Normal sig1;
     s_confirm := Normal {| sig_err := None |};
     s_calls := 0 |}.

(** A node that cannot be reached for a balance. *)
Definition balance_down : Script :=
  {| s_balance := Thrown node_down;
     s_anchor := Normal anchor1;
     s_send := Normal sig1;
     s_confirm := Normal {| sig_err := None |};
     s_calls := 0 |}.

(** A node that includes the transfer and reports that it failed on chain. *)
Definition failing_on_chain : Script :=
  {| s_balance := Normal 2500000000%float;
     s_anchor := Normal anchor1;
     s_send := Normal sig1;
     s_confirm := Normal {| sig_err := Some "InsufficientFundsForRent" |};
     s_calls := 0 |}.

Definition rejected : JsError :=
  {| err_name := "SendTransactionError";
     err_message := "failed to send transaction: insufficient lamports" |}.

(** A submit call whose recipient is no address. *)
Definition bad_recipient_request : Request :=
  send_request
    (<["senderAddress" := JStr S1]>
       (<["senderPrivateKey" := key1]>
          (<["recipientAddress" := JStr "nobody"]>
             (<["amount" := JNum 1.5%float]> ∅)))).

(** A balance query as it reaches the handler, the parameter bound. *)
Definition balance_of (address : string) : Request :=
  {| req_method := GET; req_path := ["api"; "check-balance"; address];
     req_token := None; req_body := ∅;
     req_params := [("publicKey", address)]; req_user := None |}.

(** The balance handler on the sample deployment. *)
Definition get_balance (env : gmap string string) (req : Request)
  : @World web3 ledger -> Completion Outcome * @World web3 ledger :=
  @check_balance_handler web3 ledger env req.

(** A request to the router, with or without a token. *)
Definition router_request (m : Method) (path : list string) (tok : option string)
  : Request :=
  {| req_method := m; req_path := path; req_token := tok; req_body := ∅;
     req_params := []; req_user := None |}.

(** The token check of the sample deployment. *)
Definition gate : Request -> @World web3 ledger -> Completion Outcome * @World web3 ledger :=
  @authenticateToken web3 ledger controllers.

End Faults.

(** ** Properties *)

(* Unfold a handler down to the calls it makes. *)
#[local] Ltac run :=
  unfold send_handler, sendSolTransaction, sendSolTransaction_body,
    check_balance_handler, getBalance,
    connection_getBalance, connection_getLatestBlockhash,
    connection_sendTransaction, connection_confirmTransaction,
    try_catch, bind, lift, ret, throw, console_error, emit, rpc,
    SystemProgram_transfer, Connection_new, boot in *;
  simpl in *.

(* Treat the fields of the body and the configured endpoint as opaque. *)
#[local] Ltac sealed :=
  repeat match goal with
         | |- context [prop (req_body ?r) ?k] =>
             generalize (prop (req_body r) k); intro
         | |- context [or_default ?v ?d] => generalize (or_default v d); intro
         end.

(* Follow the run stage by stage, splitting on how each stage ends. *)
#[local] Ltac stage :=
  match goal with
  | |- context [match Uint8Array_from ?x with _ => _ end] =>
      destruct (Uint8Array_from x) eqn:?
  | |- context [match Keypair_fromSecretKey ?x with _ => _ end] =>
      destruct (Keypair_fromSecretKey x) eqn:?
  | |- context [match Connection_endpoint_check ?x with _ => _ end] =>
      destruct (Connection_endpoint_check x) eqn:?
  | |- context [match PublicKey_new ?x with _ => _ end] =>
      destruct (PublicKey_new x) eqn:?
  | |- context [match SystemProgram_transfer_check ?x ?y ?z with _ => _ end] =>
      destruct (SystemProgram_transfer_check x y z) eqn:?
  | |- context [node_getBalance ?c ?k ?s] =>
      destruct (node_getBalance c k s) as [[?|?] ?] eqn:?
  | |- context [node_getLatestBlockhash ?c ?s] =>
      destruct (node_getLatestBlockhash c s) as [[?|?] ?] eqn:?
  | |- context [node_sendTransaction ?c ?t ?k ?s] =>
      destruct (node_sendTransaction c t k s) as [[?|?] ?] eqn:?
  | |- context [node_confirmTransaction ?c ?g ?l ?s] =>
      destruct (node_confirmTransaction c g l s) as [[?|?] ?] eqn:?
  end; simpl.

#[local] Ltac paths := run; sealed; repeat stage.

Section Properties.

Context `{RT : Runtime} `{W : Web3} `{L : !Ledger}.
Variable env : gmap string string.

Lemma fields_present_check (req : Request) :
  negb (truthy (prop (req_body req) "senderAddress"))
  || negb (truthy (prop (req_body req) "senderPrivateKey"))
  || negb (truthy (prop (req_body req) "recipientAddress"))
  || negb (truthy (prop (req_body req) "amount"))
  = negb (fields_present req).
Proof.
  unfold fields_present.
  destruct (truthy (prop (req_body req) "senderAddress")),
           (truthy (prop (req_body req) "senderPrivateKey")),
           (truthy (prop (req_body req) "recipientAddress")),
           (truthy (prop (req_body req) "amount")); reflexivity.
Qed.

(** A request that fails the check is answered at once, and the world is
    left as it was. *)
Lemma send_handler_missing (req : Request) (w : World) :
  fields_present req = false ->
  send_handler env req w = (Normal (Sent missing_fields), w).
Proof.
  intros Hf. unfold send_handler. rewrite fields_present_check, Hf. reflexivity.
Qed.

(** A request that passes it goes into [sendSolTransaction] with the four
    fields as they came. *)
Lemma send_handler_present (req : Request) (w : World) :
  fields_present req = true ->
  send_handler env req w =
  try_catch
    (transactionResult <-
       sendSolTransaction env
         (prop (req_body req) "senderAddress")
         (prop (req_body req) "senderPrivateKey")
         (prop (req_body req) "recipientAddress")
         (prop (req_body req) "amount");;
     ret (Sent (transfer_sent transactionResult)))
    (fun err =>
       console_error "Transaction sending error:" err;;;
       ret (Sent (transaction_failed err))) w.
Proof.
  intros Hf. unfold send_handler. rewrite fields_present_check, Hf. reflexivity.
Qed.

Lemma absent_is_falsy (body : gmap string JsValue) (k : string) :
  body !! k = None -> truthy (prop body k) = false.
Proof. intros H. unfold prop. rewrite H. reflexivity. Qed.

(** C3: a submit call whose body lacks any of [senderAddress],
    [senderPrivateKey], [recipientAddress] or [amount] is answered at once
    with status 400 and the message that names the four required fields;
    the world is unchanged, so the node was not contacted and nothing was
    logged. *)
Theorem missing_field_is_400_without_rpc (req : Request) (w : World) :
  req_body req !! "senderAddress" = None
  \/ req_body req !! "senderPrivateKey" = None
  \/ req_body req !! "recipientAddress" = None
  \/ req_body req !! "amount" = None ->
  send_handler env req w = (Normal (Sent missing_fields), w)
  /\ res_status missing_fields = 400%Z
  /\ res_json missing_fields =
     JObj [("error", JStr "Missing required fields");
           ("details",
            JStr "Need senderAddress, senderPrivateKey, recipientAddress, and amount")].
Proof.
  intros H. split; [|split; reflexivity].
  apply send_handler_missing. unfold fields_present.
  destruct H as [H|[H|[H|H]]]; rewrite (absent_is_falsy _ _ H);
    rewrite ?andb_false_r; reflexivity.
Qed.

(** C7: when the key library refuses the supplied secret key bytes (wrong
    length or format), the transfer fails with the library's error wrapped
    as ["Transaction failed: ..."], answered as a 500; the node is left in
    the state it was in and the trace holds the two error logs only, so no
    anchor was fetched and nothing was submitted. *)
Theorem bad_key_fails_before_network (req : Request) (s : NodeState)
    (secretKey : list Z) (e : JsError) :
  fields_present req = true ->
  Uint8Array_from (prop (req_body req) "senderPrivateKey") = Normal secretKey ->
  Keypair_fromSecretKey secretKey = Thrown e ->
  send_handler env req (boot s) =
  (Normal (Sent (transaction_failed (wrapped e))),
   {| w_node := s;
      w_trace := [ EvConsoleError "Transaction error:" e;
                   EvConsoleError "Transaction sending error:" (wrapped e) ] |}).
Proof.
  intros Hf Hb Hk. rewrite send_handler_present by exact Hf.
  run. rewrite Hb. simpl. rewrite Hk. reflexivity.
Qed.

(** C4, as the program has it: once the run has reached the submission, an
    error [e] thrown by the submission (the node rejects) and an error [e]
    thrown by the confirmation (the wait times out) are answered alike:
    status 500, [error: "Transaction failed"] and
    [message: "Transaction failed: " + e.message].  The answer has no field
    for the kind of failure; the two differ by the text of [e.message]
    alone. *)
Theorem submission_failures (req : Request) (s s1 : NodeState) (kp : Keypair)
    (rcp : PublicKey) (anchor : BlockhashWithExpiry) (e : JsError) :
  fields_present req = true ->
  reaches_submission env req s kp rcp anchor s1 ->
  let tx := built_transaction kp rcp
              (ToNumber (prop (req_body req) "amount") * 1e9)%float anchor in
  (forall s2,
      node_sendTransaction (transfer_connection env) tx [kp] s1 = (Thrown e, s2) ->
      fst (send_handler env req (boot s))
      = Normal (Sent (transaction_failed (wrapped e))))
  /\ (forall signature s2 s3,
      node_sendTransaction (transfer_connection env) tx [kp] s1
      = (Normal signature, s2) ->
      node_confirmTransaction (transfer_connection env) signature "confirmed" s2
      = (Thrown e, s3) ->
      fst (send_handler env req (boot s))
      = Normal (Sent (transaction_failed (wrapped e)))).
Proof.
  intros Hf ((bs & Hb & Hk) & Hc & Hr & Hi & Ha) tx; subst tx.
  unfold transfer_connection, built_transaction in *; simpl in *.
  split.
  - intros s2 Hs. rewrite send_handler_present by exact Hf.
    run. rewrite Hb. simpl. rewrite Hk, Hc, Hr. simpl. rewrite Hi, Ha. simpl.
    unfold set_feePayer, set_recentBlockhash, Transaction_add; simpl.
    rewrite Hs. reflexivity.
  - intros signature s2 s3 Hs Hq. rewrite send_handler_present by exact Hf.
    run. rewrite Hb. simpl. rewrite Hk, Hc, Hr. simpl. rewrite Hi, Ha. simpl.
    unfold set_feePayer, set_recentBlockhash, Transaction_add; simpl.
    rewrite Hs. simpl. rewrite Hq. reflexivity.
Qed.

(** A run that reaches the submission and is accepted and confirmed by
    the node answers 200 with the node's signature, after exactly three
    round trips: anchor, submission, confirmation. *)
Lemma send_handler_success (req : Request) (s s1 s2 s3 : NodeState) (kp : Keypair)
    (rcp : PublicKey) (anchor : BlockhashWithExpiry) (signature : string)
    (cr : SignatureResult) :
  fields_present req = true ->
  reaches_submission env req s kp rcp anchor s1 ->
  let c := transfer_connection env in
  let tx := built_transaction kp rcp
              (ToNumber (prop (req_body req) "amount") * 1e9)%float anchor in
  node_sendTransaction c tx [kp] s1 = (Normal signature, s2) ->
  node_confirmTransaction c signature "confirmed" s2 = (Normal cr, s3) ->
  send_handler env req (boot s) =
  (Normal (Sent (transfer_sent signature)),
   {| w_node := s3;
      w_trace := [ EvGetLatestBlockhash c (Normal anchor);
                   EvSendTransaction c tx [kp] (Normal signature);
                   EvConfirmTransaction c signature "confirmed" (Normal cr) ] |}).
Proof.
  intros Hf ((bs & Hb & Hk) & Hc & Hr & Hi & Ha) c tx Hs Hq; subst c tx.
  unfold transfer_connection, built_transaction in *; simpl in *.
  rewrite send_handler_present by exact Hf.
  run. rewrite Hb. simpl. rewrite Hk, Hc, Hr. simpl. rewrite Hi, Ha. simpl.
  unfold set_feePayer, set_recentBlockhash, Transaction_add; simpl.
  rewrite Hs. simpl. rewrite Hq. reflexivity.
Qed.

(** C2, as the program has it.  The handler checks that the amount is
    there, not what it is worth.  (1) A request whose [amount] is falsy
    (absent, [null], [false], [0], [-0], [NaN] or the empty string) is
    answered with the 400 of the missing-field check and leaves the world
    unchanged.  (2) A request that passes the check and whose lamports,
    [ToNumber(amount) * 1e9], the library refuses to encode, fails with
    the library's error wrapped as 'Transaction failed: ...', answered as
    a 500, before any round trip: the node is left as it was and the trace
    holds the two error logs only.  (3) An amount that is not a number is
    converted, not rejected: for the amount [true] a run that is accepted
    at every stage submits a transfer of 1000000000 lamports and is
    answered 200. *)
Theorem amount_is_checked_for_presence_only (req : Request) (w : World)
    (s : NodeState) :
  (truthy (prop (req_body req) "amount") = false ->
   send_handler env req w = (Normal (Sent missing_fields), w))
  /\ (forall (secretKey : list Z) (kp : Keypair) (rcp : PublicKey) (e : JsError),
        fields_present req = true ->
        Uint8Array_from (prop (req_body req) "senderPrivateKey") = Normal secretKey ->
        Keypair_fromSecretKey secretKey = Normal kp ->
        Connection_endpoint_check (endpoint (transfer_connection env)) = Normal tt ->
        PublicKey_new (prop (req_body req) "recipientAddress") = Normal rcp ->
        SystemProgram_transfer_check (Keypair_publicKey kp) rcp
          (ToNumber (prop (req_body req) "amount") * 1e9)%float = Thrown e ->
        send_handler env req (boot s) =
        (Normal (Sent (transaction_failed (wrapped e))),
         {| w_node := s;
            w_trace := [ EvConsoleError "Transaction error:" e;
                         EvConsoleError "Transaction sending error:" (wrapped e) ] |}))
  /\ (forall (s1 s2 s3 : NodeState) (kp : Keypair) (rcp : PublicKey)
             (anchor : BlockhashWithExpiry) (signature : string)
             (cr : SignatureResult),
        prop (req_body req) "amount" = JBool true ->
        fields_present req = true ->
        reaches_submission env req s kp rcp anchor s1 ->
        node_sendTransaction (transfer_connection env)
          (built_transaction kp rcp 1000000000%float anchor) [kp] s1
        = (Normal signature, s2) ->
        node_confirmTransaction (transfer_connection env) signature "confirmed" s2
        = (Normal cr, s3) ->
        send_handler env req (boot s) =
        (Normal (Sent (transfer_sent signature)),
         {| w_node := s3;
            w_trace :=
              [ EvGetLatestBlockhash (transfer_connection env) (Normal anchor);
                EvSendTransaction (transfer_connection env)
                  (built_transaction kp rcp 1000000000%float anchor) [kp]
                  (Normal signature);
                EvConfirmTransaction (transfer_connection env) signature
                  "confirmed" (Normal cr) ] |})).
Proof.
  split; [|split].
  - intros H. apply send_handler_missing. unfold fields_present.
    rewrite H, andb_false_r. reflexivity.
  - unfold transfer_connection. simpl. intros bs kp rcp e Hf Hb Hk Hc Hr Hi.
    rewrite send_handler_present by exact Hf.
    run. rewrite Hb. simpl. rewrite Hk, Hc, Hr. simpl. rewrite Hi. reflexivity.
  - intros s1 s2 s3 kp rcp anchor signature cr Ha Hf Hrun Hs Hq.
    pose proof (send_handler_success req s s1 s2 s3 kp rcp anchor signature cr
                  Hf Hrun) as X.
    simpl in X. rewrite Ha in X. exact (X Hs Hq).
Qed.

(** C5: in the trace of a request, every submission is preceded by a fetch
    of the anchor over the same connection, answered within this request,
    and the submitted transaction carries the anchor that fetch returned. *)
Theorem anchor_fetched_before_submission (req : Request) (s : NodeState) (i : nat)
    (c : Connection) (tx : Transaction) (signers : list Keypair)
    (r : Completion string) :
  w_trace (snd (send_handler env req (boot s))) !! i
  = Some (EvSendTransaction c tx signers r) ->
  exists (j : nat) (anchor : BlockhashWithExpiry),
    (j < i)%nat
    /\ w_trace (snd (send_handler env req (boot s))) !! j
       = Some (EvGetLatestBlockhash c (Normal anchor))
    /\ recentBlockhash tx = Some (blockhash anchor).
Proof.
  destruct (fields_present req) eqn:Hf.
  2: { rewrite send_handler_missing by exact Hf. destruct i; discriminate. }
  rewrite send_handler_present by exact Hf.
  paths; intros Hi;
    repeat (destruct i as [|i]; simpl in Hi; try discriminate);
    inversion Hi; subst;
    match goal with
    | a : BlockhashWithExpiry |- _ => exists 0%nat, a
    end; (split; [lia | split; reflexivity]).
Qed.


(** C10: two submit calls that pass the check of line 117 and agree on
    [senderPrivateKey], [recipientAddress] and [amount] run identically,
    whatever their [senderAddress]: same answer, same node state, same
    trace.  A transaction that is submitted is signed by the key pair
    rebuilt from the secret key, which is also its source and its fee
    payer. *)
Theorem sender_address_is_ignored (req1 req2 : Request) (w : World) :
  fields_present req1 = true ->
  fields_present req2 = true ->
  prop (req_body req1) "senderPrivateKey" = prop (req_body req2) "senderPrivateKey" ->
  prop (req_body req1) "recipientAddress" = prop (req_body req2) "recipientAddress" ->
  prop (req_body req1) "amount" = prop (req_body req2) "amount" ->
  send_handler env req1 w = send_handler env req2 w
  /\ forall (s : NodeState) (i : nat) (c : Connection) (tx : Transaction)
        (signers : list Keypair) (r : Completion string),
      w_trace (snd (send_handler env req1 (boot s))) !! i
      = Some (EvSendTransaction c tx signers r) ->
      exists (kp : Keypair) (rcp : PublicKey),
        (exists secretKey,
            Uint8Array_from (prop (req_body req2) "senderPrivateKey")
            = Normal secretKey
            /\ Keypair_fromSecretKey secretKey = Normal kp)
        /\ PublicKey_new (prop (req_body req2) "recipientAddress") = Normal rcp
        /\ signers = [kp]
        /\ feePayer tx = Some (Keypair_publicKey kp)
        /\ instructions tx =
           [ {| fromPubkey := Keypair_publicKey kp;
                toPubkey := rcp;
                lamports := (ToNumber (prop (req_body req2) "amount") * 1e9)%float |} ].
Proof.
  intros Hf1 Hf2 Hk Hr Ha. split.
  - rewrite !send_handler_present by assumption.
    unfold sendSolTransaction, sendSolTransaction_body.
    rewrite Hk, Hr, Ha. reflexivity.
  - intros s i c tx signers r.
    rewrite send_handler_present by assumption.
    rewrite <- Hk, <- Hr, <- Ha.
    paths; intros Hi;
      repeat (destruct i as [|i]; simpl in Hi; try discriminate);
      inversion Hi; subst;
      eexists _, _; (split; [eexists; split; [reflexivity|eassumption]|]);
      repeat split; reflexivity.
Qed.

End Properties.

(** ** The route table and the token check *)

Section Gate.

Context `{RT : Runtime} `{W : Web3} `{L : !Ledger} `{AC : !AuthControllers}.
Variable env : gmap string string.

(** The routes of the router that query a balance or submit a transfer do
    run the token check first: without an accepted token the request is
    answered by the check and reaches no controller. *)
Lemma router_routes_are_gated (m : Method) (path : list string)
    (tok : option string) (body : gmap string JsValue) (s : NodeState) :
  (m, path) = (POST, ["auth"; "check-balance"])
  \/ (m, path) = (POST, ["auth"; "send"])
  \/ (exists a, (m, path) = (GET, ["auth"; "balance"; a])) ->
  authorize tok = None ->
  app env {| req_method := m; req_path := path; req_token := tok;
             req_body := body; req_params := []; req_user := None |} (boot s)
  = (Normal (auth_rejection tok),
     {| w_node := s; w_trace := [EvAuthenticate tok] |}).
Proof.
  intros [E|[E|[a E]]] Hno; inversion E; subst; clear E;
    unfold app, try_catch, bind, ret; simpl;
    unfold run_route, authenticateToken, bind, ret, emit; simpl;
    rewrite Hno; reflexivity.
Qed.

(** C1 fails on [GET /api/check-balance/:publicKey]: the route is
    registered on the application without the token check, so for any
    token, or none, the request goes straight to [getBalance]; when the
    node answers, the balance is returned and the trace holds the round
    trip to the node and no run of the token check. *)
Theorem check_balance_route_skips_gate (address : string) (tok : option string)
    (body : gmap string JsValue) (s s' : NodeState) (k : PublicKey) (lam : float) :
  Connection_endpoint_check (endpoint (balance_connection env)) = Normal tt ->
  PublicKey_new (JStr address) = Normal k ->
  node_getBalance (balance_connection env) k s = (Normal lam, s') ->
  app env {| req_method := GET; req_path := ["api"; "check-balance"; address];
             req_token := tok; req_body := body; req_params := [];
             req_user := None |} (boot s)
  = (Normal {| res_status := 200;
               res_json := JObj [("balance", JNum (lam / 1e9)%float)] |},
     {| w_node := s';
        w_trace := [EvGetBalance (balance_connection env) k (Normal lam)] |}).
Proof.
  unfold balance_connection. simpl. intros Hc Hk Hb.
  unfold app, try_catch, bind, ret; simpl.
  unfold run_route, bind, ret; simpl.
  unfold check_balance_handler, getBalance, connection_getBalance, rpc,
    try_catch, bind, lift, ret, Connection_new; simpl.
  rewrite Hc, Hk. simpl. rewrite Hb. reflexivity.
Qed.

End Gate.

(** ** Further properties of the handlers *)

Section Handlers.

Context `{RT : Runtime} `{W : Web3} `{L : !Ledger}.
Variable env : gmap string string.

(** The balance handler, with its two answers named. *)
Lemma check_balance_handler_unfold (req : Request) (w : World) :
  check_balance_handler env req w =
  try_catch
    (balance <- getBalance env
                  (match assoc_lookup "publicKey" (req_params req) with
                   | Some a => JStr a
                   | None => JUndefined
                   end);;
     ret (Sent (balance_found balance)))
    (fun error =>
       console_error "Balance check error:" error;;;
       ret (Sent balance_failed)) w.
Proof. reflexivity. Qed.

(** X1: the balance handler answers every request itself: it neither
    throws nor passes the request on, and it makes at most one round trip,
    a balance query over the connection to the configured endpoint.  When
    the node answers that query with a number of lamports, the handler
    answers 200 with the lamports divided by 1e9; a 200 is given in that
    case only, and every other run is answered with the 500 that says no
    more than 'Failed to retrieve balance'. *)
Theorem balance_handler_always_answers (req : Request) (s : NodeState) :
  (exists (res : Response) (w' : World),
      check_balance_handler env req (boot s) = (Normal (Sent res), w')
      /\ round_trips (w_trace w') `prefix_of` [Balance]
      /\ ((exists (k : PublicKey) (lam : float),
              w_trace w' = [EvGetBalance (balance_connection env) k (Normal lam)]
              /\ res = balance_found (lam / 1e9)%float)
          \/ (res = balance_failed
              /\ forall (k : PublicKey) (lam : float),
                   EvGetBalance (balance_connection env) k (Normal lam)
                   ∉ w_trace w')))
  /\ (forall (address : string) (k : PublicKey) (lam : float) (s' : NodeState),
        assoc_lookup "publicKey" (req_params req) = Some address ->
        Connection_endpoint_check (endpoint (balance_connection env)) = Normal tt ->
        PublicKey_new (JStr address) = Normal k ->
        node_getBalance (balance_connection env) k s = (Normal lam, s') ->
        check_balance_handler env req (boot s) =
        (Normal (Sent (balance_found (lam / 1e9)%float)),
         {| w_node := s';
            w_trace := [EvGetBalance (balance_connection env) k (Normal lam)] |})).
Proof.
  split.
  - rewrite check_balance_handler_unfold. unfold balance_connection.
    generalize (match assoc_lookup "publicKey" (req_params req) with
                | Some a => JStr a
                | None => JUndefined
                end).
    intros pk. paths; eexists _, _;
      (split; [reflexivity|]);
      (split; [eexists; reflexivity|]);
      first [ left; eexists _, _; split; reflexivity
            | right; split; [reflexivity|];
              intros k' lam' Hin;
              repeat (apply elem_of_cons in Hin as [Hin|Hin]; [discriminate Hin|]);
              apply elem_of_nil in Hin; exact Hin ].
  - unfold balance_connection. simpl. intros address k lam s' Ha Hc Hk Hb.
    rewrite check_balance_handler_unfold, Ha.
    run. rewrite Hc, Hk. simpl. rewrite Hb. reflexivity.
Qed.

(** X2: a balance query for an address the key library refuses is
    answered 500 before any round trip: the node is left as it was, and
    the library's error is logged twice, unchanged, by [getBalance] and by
    the handler. *)
Theorem bad_address_fails_before_network (req : Request) (s : NodeState)
    (address : string) (e : JsError) :
  assoc_lookup "publicKey" (req_params req) = Some address ->
  Connection_endpoint_check (endpoint (balance_connection env)) = Normal tt ->
  PublicKey_new (JStr address) = Thrown e ->
  check_balance_handler env req (boot s) =
  (Normal (Sent balance_failed),
   {| w_node := s;
      w_trace := [ EvConsoleError "Error fetching balance:" e;
                   EvConsoleError "Balance check error:" e ] |}).
Proof.
  unfold balance_connection. simpl. intros Ha Hc Hk.
  rewrite check_balance_handler_unfold, Ha.
  run. rewrite Hc, Hk. reflexivity.
Qed.

(** X3: when the node fails to answer the balance query with an error
    [e], the query is not repeated: the trace holds that one round trip,
    [getBalance] rethrows [e] itself (it is [e] that the handler logs), and
    the answer is the 500 that does not mention [e]. *)
Theorem balance_upstream_error_is_not_retried (req : Request) (s s' : NodeState)
    (address : string) (k : PublicKey) (e : JsError) :
  assoc_lookup "publicKey" (req_params req) = Some address ->
  Connection_endpoint_check (endpoint (balance_connection env)) = Normal tt ->
  PublicKey_new (JStr address) = Normal k ->
  node_getBalance (balance_connection env) k s = (Thrown e, s') ->
  check_balance_handler env req (boot s) =
  (Normal (Sent balance_failed),
   {| w_node := s';
      w_trace := [ EvGetBalance (balance_connection env) k (Thrown e);
                   EvConsoleError "Error fetching balance:" e;
                   EvConsoleError "Balance check error:" e ] |}).
Proof.
  unfold balance_connection. simpl. intros Ha Hc Hk Hb.
  rewrite check_balance_handler_unfold, Ha.
  run. rewrite Hc, Hk. simpl. rewrite Hb. reflexivity.
Qed.

(** X4: the transfer handler answers every request itself, with status
    200, 400 or 500: no error escapes it and it never passes the request
    on. *)
Theorem send_handler_always_answers (req : Request) (w : World) :
  exists (res : Response) (w' : World),
    send_handler env req w = (Normal (Sent res), w')
    /\ (res_status res = 200%Z \/ res_status res = 400%Z \/ res_status res = 500%Z).
Proof.
  destruct (fields_present req) eqn:Hf.
  2: { rewrite send_handler_missing by exact Hf.
       eexists _, _. split; [reflexivity | right; left; reflexivity]. }
  rewrite send_handler_present by exact Hf.
  paths; eexists _, _; (split; [reflexivity|]); simpl; auto.
Qed.

(** X5: when the key library refuses the recipient address, the transfer
    fails before any round trip: the node is left as it was, nothing is
    fetched, signed or submitted, and the answer is the 500 with the
    library's message behind 'Transaction failed: '. *)
Theorem bad_recipient_fails_before_network (req : Request) (s : NodeState)
    (secretKey : list Z) (kp : Keypair) (e : JsError) :
  fields_present req = true ->
  Uint8Array_from (prop (req_body req) "senderPrivateKey") = Normal secretKey ->
  Keypair_fromSecretKey secretKey = Normal kp ->
  Connection_endpoint_check (endpoint (transfer_connection env)) = Normal tt ->
  PublicKey_new (prop (req_body req) "recipientAddress") = Thrown e ->
  send_handler env req (boot s) =
  (Normal (Sent (transaction_failed (wrapped e))),
   {| w_node := s;
      w_trace := [ EvConsoleError "Transaction error:" e;
                   EvConsoleError "Transaction sending error:" (wrapped e) ] |}).
Proof.
  unfold transfer_connection. simpl. intros Hf Hb Hk Hc Hr.
  rewrite send_handler_present by exact Hf.
  run. rewrite Hb. simpl. rewrite Hk, Hc, Hr. reflexivity.
Qed.

(** X6: when the fetch of the anchor fails with an error [e], nothing is
    submitted: the fetch is the only round trip of the request, it is not
    repeated, and the answer is the 500 built from [e]. *)
Theorem anchor_failure_submits_nothing (req : Request) (s s1 : NodeState)
    (secretKey : list Z) (kp : Keypair) (rcp : PublicKey) (e : JsError) :
  fields_present req = true ->
  Uint8Array_from (prop (req_body req) "senderPrivateKey") = Normal secretKey ->
  Keypair_fromSecretKey secretKey = Normal kp ->
  Connection_endpoint_check (endpoint (transfer_connection env)) = Normal tt ->
  PublicKey_new (prop (req_body req) "recipientAddress") = Normal rcp ->
  SystemProgram_transfer_check (Keypair_publicKey kp) rcp
    (ToNumber (prop (req_body req) "amount") * 1e9)%float = Normal tt ->
  node_getLatestBlockhash (transfer_connection env) s = (Thrown e, s1) ->
  send_handler env req (boot s) =
  (Normal (Sent (transaction_failed (wrapped e))),
   {| w_node := s1;
      w_trace := [ EvGetLatestBlockhash (transfer_connection env) (Thrown e);
                   EvConsoleError "Transaction error:" e;
                   EvConsoleError "Transaction sending error:" (wrapped e) ] |}).
Proof.
  unfold transfer_connection. simpl. intros Hf Hb Hk Hc Hr Hi Ha.
  rewrite send_handler_present by exact Hf.
  run. rewrite Hb. simpl. rewrite Hk, Hc, Hr. simpl. rewrite Hi, Ha. reflexivity.
Qed.

(** X7: a submission the node rejects with an error [e] is neither
    repeated nor awaited: after the anchor and the one submission no
    further round trip is made (no [confirmTransaction]), the node stays
    in the state the submission left it in, and the answer is the 500
    built from [e]. *)
Theorem rejected_submission_is_not_confirmed (req : Request) (s s1 s2 : NodeState)
    (kp : Keypair) (rcp : PublicKey) (anchor : BlockhashWithExpiry) (e : JsError) :
  fields_present req = true ->
  reaches_submission env req s kp rcp anchor s1 ->
  let c := transfer_connection env in
  let tx := built_transaction kp rcp
              (ToNumber (prop (req_body req) "amount") * 1e9)%float anchor in
  node_sendTransaction c tx [kp] s1 = (Thrown e, s2) ->
  send_handler env req (boot s) =
  (Normal (Sent (transaction_failed (wrapped e))),
   {| w_node := s2;
      w_trace := [ EvGetLatestBlockhash c (Normal anchor);
                   EvSendTransaction c tx [kp] (Thrown e);
                   EvConsoleError "Transaction error:" e;
                   EvConsoleError "Transaction sending error:" (wrapped e) ] |}).
Proof.
  intros Hf ((bs & Hb & Hk) & Hc & Hr & Hi & Ha) c tx Hs; subst c tx.
  unfold transfer_connection, built_transaction in *; simpl in *.
  rewrite send_handler_present by exact Hf.
  run. rewrite Hb. simpl. rewrite Hk, Hc, Hr. simpl. rewrite Hi, Ha. simpl.
  unfold set_feePayer, set_recentBlockhash, Transaction_add; simpl.
  rewrite Hs. reflexivity.
Qed.

(** X8: the round trips of a transfer request are always an initial
    segment of: anchor, submission, confirmation.  So each is made at most
    once (nothing is retried), in this order, a later one only after the
    earlier ones, and a transfer never queries a balance. *)
Theorem round_trips_in_order (req : Request) (s : NodeState) :
  round_trips (w_trace (snd (send_handler env req (boot s))))
  `prefix_of` [Anchor; Submit; Confirm].
Proof.
  destruct (fields_present req) eqn:Hf.
  2: { rewrite send_handler_missing by exact Hf. eexists; reflexivity. }
  rewrite send_handler_present by exact Hf.
  paths; eexists; reflexivity.
Qed.

(** X9: an answer of status 200 is given only after the node accepted the
    one submission and the confirmation returned: the trace is then
    exactly anchor, submission, confirmation, each answered without error,
    and the signature in the answer is the one the node returned for the
    submission. *)
Theorem success_answer_means_confirmed (req : Request) (s : NodeState)
    (res : Response) (w' : World) :
  send_handler env req (boot s) = (Normal (Sent res), w') ->
  res_status res = 200%Z ->
  exists (kp : Keypair) (rcp : PublicKey) (anchor : BlockhashWithExpiry)
         (signature : string) (cr : SignatureResult),
    let c := transfer_connection env in
    let tx := built_transaction kp rcp
                (ToNumber (prop (req_body req) "amount") * 1e9)%float anchor in
    w_trace w' = [ EvGetLatestBlockhash c (Normal anchor);
                   EvSendTransaction c tx [kp] (Normal signature);
                   EvConfirmTransaction c signature "confirmed" (Normal cr) ]
    /\ res = transfer_sent signature.
Proof.
  destruct (fields_present req) eqn:Hf.
  { rewrite send_handler_present by exact Hf.
    unfold transfer_connection, built_transaction.
    paths; intros Hrun Hst; inversion Hrun; subst; simpl in Hst;
      try discriminate; eexists _, _, _, _, _; split; reflexivity. }
  rewrite send_handler_missing by exact Hf.
  intros Hrun Hst; inversion Hrun; subst; discriminate.
Qed.

(** X10: the result of the confirmation is not examined: a transfer that
    the node included but reports as failed on chain is answered 200 with
    its signature all the same. *)
Theorem onchain_failure_is_answered_200 (req : Request) (s s1 s2 s3 : NodeState)
    (kp : Keypair) (rcp : PublicKey) (anchor : BlockhashWithExpiry)
    (signature : string) (err : string) :
  fields_present req = true ->
  reaches_submission env req s kp rcp anchor s1 ->
  let c := transfer_connection env in
  let tx := built_transaction kp rcp
              (ToNumber (prop (req_body req) "amount") * 1e9)%float anchor in
  node_sendTransaction c tx [kp] s1 = (Normal signature, s2) ->
  node_confirmTransaction c signature "confirmed" s2
  = (Normal {| sig_err := Some err |}, s3) ->
  fst (send_handler env req (boot s)) = Normal (Sent (transfer_sent signature)).
Proof.
  intros Hf Hrun c tx Hs Hq.
  rewrite (send_handler_success env req s s1 s2 s3 kp rcp anchor signature
             {| sig_err := Some err |} Hf Hrun Hs Hq).
  reflexivity.
Qed.

(** X11: every answer of status 500 is built from an error the run
    logged: for some error [e], logged under 'Transaction error:', the
    answer is [error: 'Transaction failed'] with the message
    'Transaction failed: ' followed by the message of [e], and the last
    line logged is the rethrown error. *)
Theorem failure_answer_names_logged_error (req : Request) (s : NodeState)
    (res : Response) (w' : World) :
  send_handler env req (boot s) = (Normal (Sent res), w') ->
  res_status res = 500%Z ->
  exists e : JsError,
    res = transaction_failed (wrapped e)
    /\ EvConsoleError "Transaction error:" e ∈ w_trace w'
    /\ last (w_trace w')
       = Some (EvConsoleError "Transaction sending error:" (wrapped e)).
Proof.
  destruct (fields_present req) eqn:Hf.
  { rewrite send_handler_present by exact Hf.
    paths; intros Hrun Hst; inversion Hrun; subst; simpl in Hst;
      try discriminate; eexists;
      (split; [reflexivity|]); (split; [|reflexivity]);
      repeat first [ apply list_elem_of_here | apply list_elem_of_further ]. }
  rewrite send_handler_missing by exact Hf.
  intros Hrun Hst; inversion Hrun; subst; discriminate.
Qed.

(** X15: status 400 is the answer to a missing or falsy field and to
    nothing else: a request whose four fields pass the check of line 117
    is never answered 400, whatever the library or the node make of their
    values, and a request that fails it is answered 400 with the world
    left as it was. *)
Theorem status_400_iff_field_missing (req : Request) (w w' : World)
    (res : Response) :
  send_handler env req w = (Normal (Sent res), w') ->
  (res_status res = 400%Z <-> fields_present req = false)
  /\ (fields_present req = false -> w' = w).
Proof.
  destruct (fields_present req) eqn:Hf.
  { rewrite send_handler_present by exact Hf.
    paths; intros Hrun; inversion Hrun; subst; simpl;
      (split; [split; discriminate | discriminate]). }
  rewrite send_handler_missing by exact Hf.
  intros Hrun; inversion Hrun; subst. simpl.
  split; [split; reflexivity | reflexivity].
Qed.

End Handlers.

(** ** Further properties of the route table *)

Section Routes.

Context `{RT : Runtime} `{W : Web3} `{L : !Ledger} `{AC : !AuthControllers}.
Variable env : gmap string string.

Lemma match_path_lit (a : string) (rest : list string)
    (ps : list (string * string)) :
  match_path [Lit a] rest = Some ps -> rest = [a] /\ ps = [].
Proof.
  destruct rest as [|x [|y rest]]; simpl; try discriminate.
  - destruct (String.eqb a x) eqn:E; try discriminate.
    apply String.eqb_eq in E. intros H; inversion H; subst. split; reflexivity.
  - destruct (String.eqb a x); discriminate.
Qed.

Lemma match_path_lit_param (a n : string) (rest : list string)
    (ps : list (string * string)) :
  match_path [Lit a; Param n] rest = Some ps ->
  exists x, rest = [a; x] /\ ps = [(n, x)].
Proof.
  destruct rest as [|x [|y [|z rest]]]; simpl; try discriminate.
  - destruct (String.eqb a x); discriminate.
  - destruct (String.eqb a x) eqn:E; try discriminate.
    apply String.eqb_eq in E. intros H; inversion H; subst. eauto.
  - destruct (String.eqb a x); discriminate.
Qed.

#[local] Opaque authenticateToken.

(** X12: on each of the eight routes of the router that name
    [authenticateToken] first, a request that the token check answers
    itself gets that answer from the application and goes no further: the
    world is the one the check left, so neither the controller of the
    route nor any later layer ran. *)
Theorem gated_routes_stop_at_gate (req : Request) (w w' : World)
    (pat : list Seg) (rest : list string) (ps : list (string * string))
    (r : Response) :
  (req_method req, pat) ∈ gated_routes ->
  req_path req = "auth" :: rest ->
  match_path pat rest = Some ps ->
  authenticateToken (with_params (with_path req rest) ps) w = (Normal (Sent r), w') ->
  app env req w = (Normal r, w').
Proof.
  destruct req as [m path tok body params user]. simpl.
  unfold with_params, with_path. simpl.
  intros Hin Hpath Hm Hg. subst path.
  unfold gated_routes in Hin.
  repeat (apply elem_of_cons in Hin as [Hin|Hin]);
    try (apply elem_of_nil in Hin; contradiction);
    inversion Hin; subst; clear Hin;
    first [ apply match_path_lit in Hm as [-> ->]
          | apply match_path_lit_param in Hm as (x & -> & ->) ];
    unfold app, try_catch, bind, ret; simpl;
    unfold run_route, bind, ret; simpl;
    unfold with_params, with_path; simpl;
    unfold bind, ret; rewrite Hg; reflexivity.
Qed.

(** X13: the transaction history and the deletion of a transaction are
    mounted without the token check: for any token, or none, the
    controller is the first thing to run, and what it answers is the
    application's answer. *)
Theorem history_routes_skip_gate (tok : option string)
    (body : gmap string JsValue) (id : string) (w w' : World) (r : Response) :
  (getTransactionHistory
     {| req_method := GET; req_path := ["transactions"]; req_token := tok;
        req_body := body; req_params := []; req_user := None |} w
   = (Normal (Sent r), w') ->
   app env {| req_method := GET; req_path := ["auth"; "transactions"];
              req_token := tok; req_body := body; req_params := [];
              req_user := None |} w
   = (Normal r, w'))
  /\ (deleteTransaction
        {| req_method := DELETE; req_path := ["transaction"; id]; req_token := tok;
           req_body := body; req_params := [("id", id)]; req_user := None |} w
      = (Normal (Sent r), w') ->
      app env {| req_method := DELETE; req_path := ["auth"; "transaction"; id];
                 req_token := tok; req_body := body; req_params := [];
                 req_user := None |} w
      = (Normal r, w')).
Proof.
  split; intros Hc;
    unfold app, try_catch, bind, ret; simpl;
    unfold run_route, bind, ret; simpl;
    unfold with_params, with_path; simpl;
    unfold bind, ret; rewrite Hc; reflexivity.
Qed.

(** X14: [POST /auth/send] is answered by the router before the
    application's own handler of that path: when the token check passes
    the request on and the [sendTransaction] controller answers, that is
    the application's answer, and the handler of lines 114-131 (with
    [sendSolTransaction] behind it) does not run. *)
Theorem router_send_answers_first (tok : option string)
    (body : gmap string JsValue) (w w1 w2 : World) (req1 : Request)
    (r : Response) :
  authenticateToken
    {| req_method := POST; req_path := ["send"]; req_token := tok;
       req_body := body; req_params := []; req_user := None |} w
  = (Normal (Next req1), w1) ->
  sendTransaction req1 w1 = (Normal (Sent r), w2) ->
  app env {| req_method := POST; req_path := ["auth"; "send"]; req_token := tok;
             req_body := body; req_params := []; req_user := None |} w
  = (Normal r, w2).
Proof.
  intros Hg Hc.
  unfold app, try_catch, bind, ret; simpl.
  unfold run_route, bind, ret; simpl.
  unfold with_params, with_path; simpl.
  unfold bind, ret. rewrite Hg, Hc. reflexivity.
Qed.

#[local] Transparent authenticateToken.

(** X16: the answer to [GET /api/check-balance/:publicKey] depends on the
    address in the path alone: two requests for the same address run
    identically, whatever token, body or user they carry. *)
Theorem balance_route_ignores_credentials (address : string)
    (tok1 tok2 : option string) (body1 body2 : gmap string JsValue)
    (user1 user2 : option string) (w : World) :
  app env {| req_method := GET; req_path := ["api"; "check-balance"; address];
             req_token := tok1; req_body := body1; req_params := [];
             req_user := user1 |} w
  = app env {| req_method := GET; req_path := ["api"; "check-balance"; address];
               req_token := tok2; req_body := body2; req_params := [];
               req_user := user2 |} w.
Proof.
  unfold app, try_catch, bind, ret; simpl.
  unfold run_route, bind, ret; simpl.
  unfold check_balance_handler, with_params, try_catch, bind, ret; simpl.
  destruct (getBalance env (JStr address) w) as [[balance|e] w1]; simpl;
    [reflexivity|].
  unfold console_error, emit. reflexivity.
Qed.

End Routes.

(** ** The properties on the sample deployment *)

Import Sample.

(** C3 at a body without [senderPrivateKey]. *)
Lemma missing_key_witness :
  body_without_key !! "senderPrivateKey" = None
  /\ post_send ∅ (send_request body_without_key) (start healthy)
     = (Normal (Sent missing_fields), start healthy).
Proof.
  split; [reflexivity|].
  apply (@missing_field_is_400_without_rpc runtime web3 ledger ∅
           (send_request body_without_key) (start healthy)).
  right; left; reflexivity.
Defined.

(** C2 does not hold of the amount [true], which is not a number: the
    request passes the check, the amount converts to 1, and the run
    fetches an anchor, submits a transfer of 1000000000 lamports signed
    with the sender's key, awaits its confirmation and is answered 200. *)
Lemma boolean_amount_is_submitted :
  post_send ∅ (send_request (transfer_body S1 key1 (JBool true))) (start healthy)
  = (Normal (Sent (transfer_sent sig1)),
     world (served (served (served healthy)))
       [ EvGetLatestBlockhash c1 (Normal anchor1);
         EvSendTransaction c1 (paid 1000000000%float) [signer1] (Normal sig1);
         EvConfirmTransaction c1 sig1 "confirmed" (Normal {| sig_err := None |}) ]).
Proof. reflexivity. Qed.

(** The amended C2 at an amount of 0, which is answered 400, and at an
    amount of -1, whose lamports the library refuses: neither touches the
    node. *)
Lemma unusable_amount_witness :
  post_send ∅ (send_request (transfer_body S1 key1 (JNum 0%float))) (start healthy)
  = (Normal (Sent missing_fields), start healthy)
  /\ exists e : JsError,
      post_send ∅ (send_request (transfer_body S1 key1 (JNum (-1)%float)))
        (start healthy)
      = (Normal (Sent (transaction_failed (wrapped e))),
         world healthy
           [ EvConsoleError "Transaction error:" e;
             EvConsoleError "Transaction sending error:" (wrapped e) ]).
Proof.
  split.
  - apply (proj1 (@amount_is_checked_for_presence_only runtime web3 ledger ∅
                    (send_request (transfer_body S1 key1 (JNum 0%float)))
                    (start healthy) healthy)).
    reflexivity.
  - exists unencodable.
    apply (proj1 (proj2 (@amount_is_checked_for_presence_only runtime web3 ledger ∅
                           (send_request (transfer_body S1 key1 (JNum (-1)%float)))
                           (start healthy) healthy))
             signer1 signer1 recipient1 unencodable).
    + reflexivity.
    + reflexivity.
    + reflexivity.
    + reflexivity.
    + reflexivity.
    + reflexivity.
Defined.

(** C4 does not hold: a node that rejects the submission and a node that
    lets the confirmation time out, each with the same message text, get
    the same answer, down to the last field. *)
Lemma rejection_and_timeout_answer_alike :
  fst (post_send ∅ req1 (start (rejecting "request failed")))
  = Normal (Sent {| res_status := 500;
                    res_json := JObj [("error", JStr "Transaction failed");
                                      ("message",
                                       JStr "Transaction failed: request failed")] |})
  /\ fst (post_send ∅ req1 (start (timing_out "request failed")))
     = fst (post_send ∅ req1 (start (rejecting "request failed")))
  /\ last (w_trace (snd (post_send ∅ req1 (start (rejecting "request failed")))))
     = Some (EvConsoleError "Transaction sending error:"
               (wrapped {| err_name := "SendTransactionError";
                           err_message := "request failed" |}))
  /\ w_trace (snd (post_send ∅ req1 (start (timing_out "request failed")))) !! 2%nat
     = Some (EvConfirmTransaction c1 sig1 "confirmed"
               (Thrown {| err_name := "TransactionExpiredTimeoutError";
                          err_message := "request failed" |})).
Proof. repeat split; reflexivity. Qed.

(** The amended C4 at a confirmation that times out. *)
Lemma timeout_answer_witness :
  fst (post_send ∅ req1 (start (timing_out not_confirmed)))
  = Normal (Sent (transaction_failed
                    (wrapped {| err_name := "TransactionExpiredTimeoutError";
                                err_message := not_confirmed |}))).
Proof.
  refine (proj2 (@submission_failures runtime web3 ledger ∅ req1
                   (timing_out not_confirmed) (served (timing_out not_confirmed))
                   signer1 recipient1 anchor1
                   {| err_name := "TransactionExpiredTimeoutError";
                      err_message := not_confirmed |}
                   eq_refl _)
                sig1
                (served (served (timing_out not_confirmed)))
                (served (served (served (timing_out not_confirmed)))) _ _).
  - split; [exists signer1; split; reflexivity | repeat split; reflexivity].
  - reflexivity.
  - reflexivity.
Defined.

(** C5 at the sample transfer: the submission is the second event, the
    fetch of its anchor the first. *)
Lemma anchor_order_witness :
  exists (j : nat) (anchor : BlockhashWithExpiry),
    (j < 1)%nat
    /\ w_trace (snd (post_send ∅ req1 (start healthy))) !! j
       = Some (EvGetLatestBlockhash c1 (Normal anchor))
    /\ recentBlockhash (paid 1500000000%float) = Some (blockhash anchor).
Proof.
  apply (@anchor_fetched_before_submission runtime web3 ledger ∅ req1 healthy
           1%nat c1 (paid 1500000000%float) [signer1] (Normal sig1)).
  reflexivity.
Defined.

(** C6 fails at the amount 8.2.  The product [8.2 * 1e9] is not
    8200000000 in binary64 arithmetic but 8199999999.999999, which the
    library refuses to encode as lamports: no transaction is built, the
    node is not contacted, and the request is answered 500.  At the amount
    1.5 the product is the integer 1500000000, and the transfer is
    submitted with that many lamports and answered with the node's
    signature. *)
Lemma fractional_product_is_not_transferred :
  (8.2 * 1e9)%float = 8199999999.999999%float
  /\ (exists e : JsError,
        post_send ∅ (send_request (transfer_body S1 key1 (JNum 8.2%float)))
          (start healthy)
        = (Normal (Sent (transaction_failed (wrapped e))),
           world healthy
             [ EvConsoleError "Transaction error:" e;
               EvConsoleError "Transaction sending error:" (wrapped e) ]))
  /\ post_send ∅ req1 (start healthy)
     = (Normal (Sent {| res_status := 200;
                        res_json := JObj [("success", JBool true);
                                          ("signature", JStr sig1)] |}),
        world (served (served (served healthy)))
          [ EvGetLatestBlockhash c1 (Normal anchor1);
            EvSendTransaction c1
              (@mkTransaction web3
                 [ @mkTransfer web3 payer1 recipient1 1500000000%float ]
                 (Some (blockhash anchor1)) (Some payer1))
              [signer1] (Normal sig1);
            EvConfirmTransaction c1 sig1 "confirmed"
              (Normal {| sig_err := None |}) ]).
Proof.
  split; [reflexivity|]. split; [exists unencodable|]; reflexivity.
Qed.

(** C7 at a secret key of three bytes. *)
Lemma short_key_witness :
  post_send ∅ (send_request (transfer_body S1 short_key (JNum 1.5%float)))
    (start healthy)
  = (Normal (Sent {| res_status := 500;
                     res_json :=
                       JObj [("error", JStr "Transaction failed");
                             ("message",
                              JStr "Transaction failed: bad secret key size")] |}),
     world healthy
       [ EvConsoleError "Transaction error:" (Error_new "bad secret key size");
         EvConsoleError "Transaction sending error:"
           (Error_new "Transaction failed: bad secret key size") ]).
Proof.
  apply (@bad_key_fails_before_network runtime web3 ledger ∅
           (send_request (transfer_body S1 short_key (JNum 1.5%float)))
           healthy [1; 2; 3]%Z (Error_new "bad secret key size")).
  - reflexivity.
  - reflexivity.
  - reflexivity.
Defined.


(** C10 at two calls that name different senders for the same key. *)
Lemma other_sender_witness :
  post_send ∅ (send_request (transfer_body S1 key1 (JNum 1.5%float))) (start healthy)
  = post_send ∅ (send_request (transfer_body R1 key1 (JNum 1.5%float))) (start healthy).
Proof.
  apply (proj1 (@sender_address_is_ignored runtime web3 ledger ∅
                  (send_request (transfer_body S1 key1 (JNum 1.5%float)))
                  (send_request (transfer_body R1 key1 (JNum 1.5%float)))
                  (start healthy)
                  eq_refl eq_refl eq_refl eq_refl eq_refl)).
Defined.

(** C1 at a balance query that carries no token: it is answered with the
    balance, and the only event of the run is the round trip to the node. *)
Lemma balance_without_token_witness :
  req_token (balance_request S1) = None
  /\ serve ∅ (balance_request S1) (start healthy)
     = (Normal {| res_status := 200;
                  res_json := JObj [("balance", JNum 2.5%float)] |},
        world (served healthy)
          [ @EvGetBalance web3 (balance_connection ∅) account1
              (Normal 2500000000%float) ]).
Proof.
  split; [reflexivity|].
  apply (@check_balance_route_skips_gate runtime web3 ledger controllers ∅
           S1 None ∅ healthy (served healthy) account1 2500000000%float).
  - reflexivity.
  - reflexivity.
  - reflexivity.
Defined.

(** ** The further properties on the sample deployment *)

Import Faults.

(** X1 at a balance query the node answers with 2500000000 lamports. *)
Lemma balance_answered_witness :
  get_balance ∅ (balance_of S1) (start healthy)
  = (Normal (Sent {| res_status := 200;
                     res_json := JObj [("balance", JNum 2.5%float)] |}),
     world (served healthy)
       [ @EvGetBalance web3 (balance_connection ∅) account1
           (Normal 2500000000%float) ]).
Proof.
  apply (proj2 (@balance_handler_always_answers web3 ledger ∅ (balance_of S1)
                  healthy)
           S1 account1 2500000000%float (served healthy)).
  - reflexivity.
  - reflexivity.
  - reflexivity.
  - reflexivity.
Defined.

(** X2 at an address of six characters. *)
Lemma bad_address_witness :
  get_balance ∅ (balance_of "nobody") (start healthy)
  = (Normal (Sent balance_failed),
     world healthy
       [ EvConsoleError "Error fetching balance:" (Error_new "Invalid public key input");
         EvConsoleError "Balance check error:" (Error_new "Invalid public key input") ]).
Proof.
  apply (@bad_address_fails_before_network web3 ledger ∅ (balance_of "nobody")
           healthy "nobody" (Error_new "Invalid public key input")).
  - reflexivity.
  - reflexivity.
  - reflexivity.
Defined.

(** X3 at a node that cannot be reached. *)
Lemma balance_down_witness :
  get_balance ∅ (balance_of S1) (start balance_down)
  = (Normal (Sent balance_failed),
     world (served balance_down)
       [ @EvGetBalance web3 (balance_connection ∅) account1 (Thrown node_down);
         EvConsoleError "Error fetching balance:" node_down;
         EvConsoleError "Balance check error:" node_down ]).
Proof.
  apply (@balance_upstream_error_is_not_retried web3 ledger ∅ (balance_of S1)
           balance_down (served balance_down) S1 account1 node_down).
  - reflexivity.
  - reflexivity.
  - reflexivity.
  - reflexivity.
Defined.

(** X5 at a recipient that is no address. *)
Lemma bad_recipient_witness :
  post_send ∅ bad_recipient_request (start healthy)
  = (Normal (Sent (transaction_failed (wrapped (Error_new "Invalid public key input")))),
     world healthy
       [ EvConsoleError "Transaction error:" (Error_new "Invalid public key input");
         EvConsoleError "Transaction sending error:"
           (wrapped (Error_new "Invalid public key input")) ]).
Proof.
  apply (@bad_recipient_fails_before_network runtime web3 ledger ∅
           bad_recipient_request healthy signer1 signer1
           (Error_new "Invalid public key input")).
  - reflexivity.
  - reflexivity.
  - reflexivity.
  - reflexivity.
  - reflexivity.
Defined.

(** X6 at a node that cannot be reached for the anchor. *)
Lemma anchor_down_witness :
  post_send ∅ req1 (start anchor_down)
  = (Normal (Sent (transaction_failed (wrapped node_down))),
     world (served anchor_down)
       [ @EvGetLatestBlockhash web3 c1 (Thrown node_down);
         EvConsoleError "Transaction error:" node_down;
         EvConsoleError "Transaction sending error:" (wrapped node_down) ]).
Proof.
  apply (@anchor_failure_submits_nothing runtime web3 ledger ∅ req1
           anchor_down (served anchor_down) signer1 signer1 recipient1 node_down).
  - reflexivity.
  - reflexivity.
  - reflexivity.
  - reflexivity.
  - reflexivity.
  - reflexivity.
  - reflexivity.
Defined.

(** X7 at a node that rejects the submission. *)
Lemma rejected_submission_witness :
  post_send ∅ req1 (start (rejecting (err_message rejected)))
  = (Normal (Sent (transaction_failed (wrapped rejected))),
     world (served (served (rejecting (err_message rejected))))
       [ EvGetLatestBlockhash c1 (Normal anchor1);
         EvSendTransaction c1 (paid 1500000000%float) [signer1] (Thrown rejected);
         EvConsoleError "Transaction error:" rejected;
         EvConsoleError "Transaction sending error:" (wrapped rejected) ]).
Proof.
  apply (@rejected_submission_is_not_confirmed runtime web3 ledger ∅ req1
           (rejecting (err_message rejected))
           (served (rejecting (err_message rejected)))
           (served (served (rejecting (err_message rejected))))
           signer1 recipient1 anchor1 rejected).
  - reflexivity.
  - split; [exists signer1; split; reflexivity | repeat split; reflexivity].
  - reflexivity.
Defined.

(** X9 at the sample transfer. *)
Lemma success_answer_witness :
  exists (kp : @Keypair web3) (rcp : @PublicKey web3) (anchor : BlockhashWithExpiry)
         (signature : string) (cr : SignatureResult),
    w_trace (snd (post_send ∅ req1 (start healthy)))
    = [ EvGetLatestBlockhash (transfer_connection ∅) (Normal anchor);
        EvSendTransaction (transfer_connection ∅)
          (@built_transaction web3 kp rcp (1.5 * 1e9)%float anchor) [kp]
          (Normal signature);
        EvConfirmTransaction (transfer_connection ∅) signature "confirmed"
          (Normal cr) ]
    /\ transfer_sent sig1 = transfer_sent signature.
Proof.
  apply (@success_answer_means_confirmed runtime web3 ledger ∅ req1 healthy
           (transfer_sent sig1) (snd (post_send ∅ req1 (start healthy)))).
  - reflexivity.
  - reflexivity.
Defined.

(** X10 at a transfer that failed on chain. *)
Lemma onchain_failure_witness :
  fst (post_send ∅ req1 (start failing_on_chain))
  = Normal (Sent {| res_status := 200;
                    res_json := JObj [("success", JBool true);
                                      ("signature", JStr sig1)] |}).
Proof.
  apply (@onchain_failure_is_answered_200 runtime web3 ledger ∅ req1
           failing_on_chain (served failing_on_chain)
           (served (served failing_on_chain))
           (served (served (served failing_on_chain)))
           signer1 recipient1 anchor1 sig1 "InsufficientFundsForRent").
  - reflexivity.
  - split; [exists signer1; split; reflexivity | repeat split; reflexivity].
  - reflexivity.
  - reflexivity.
Defined.

(** X11 at a rejected submission. *)
Lemma failure_answer_witness :
  exists e : JsError,
    transaction_failed (wrapped rejected) = transaction_failed (wrapped e)
    /\ EvConsoleError "Transaction error:" e
       ∈ w_trace (snd (post_send ∅ req1 (start (rejecting (err_message rejected)))))
    /\ last (w_trace (snd (post_send ∅ req1 (start (rejecting (err_message rejected))))))
       = Some (EvConsoleError "Transaction sending error:" (wrapped e)).
Proof.
  apply (@failure_answer_names_logged_error runtime web3 ledger ∅ req1
           (rejecting (err_message rejected))
           (transaction_failed (wrapped rejected))
           (snd (post_send ∅ req1 (start (rejecting (err_message rejected)))))).
  - reflexivity.
  - reflexivity.
Defined.

(** X12 at a transfer submitted to the router without a token. *)
Lemma gate_stops_send_witness :
  serve ∅ (router_request POST ["auth"; "send"] None) (start healthy)
  = (Normal {| res_status := 401;
               res_json := JObj [("message", JStr "Unauthorized")] |},
     world healthy [EvAuthenticate None]).
Proof.
  apply (@gated_routes_stop_at_gate runtime web3 ledger controllers ∅
           (router_request POST ["auth"; "send"] None)
           (start healthy) (world healthy [EvAuthenticate None])
           [Lit "send"] ["send"] []).
  - unfold gated_routes. simpl. do 2 apply list_elem_of_further. apply list_elem_of_here.
  - reflexivity.
  - reflexivity.
  - reflexivity.
Defined.

(** X13 at a deletion requested without a token. *)
Lemma delete_without_token_witness :
  serve ∅ (router_request DELETE ["auth"; "transaction"; "42"] None) (start healthy)
  = (Normal {| res_status := 501; res_json := JNull |}, start healthy).
Proof.
  apply (proj2 (@history_routes_skip_gate runtime web3 ledger controllers ∅
                  None ∅ "42" (start healthy) (start healthy)
                  {| res_status := 501; res_json := JNull |})).
  reflexivity.
Defined.

(** X14 at a transfer submitted to the router with the token of a session. *)
Lemma router_send_witness :
  serve ∅ (router_request POST ["auth"; "send"] (Some "session-of-alice"))
    (start healthy)
  = (Normal {| res_status := 501; res_json := JNull |},
     world healthy [EvAuthenticate (Some "session-of-alice")]).
Proof.
  apply (@router_send_answers_first runtime web3 ledger controllers ∅
           (Some "session-of-alice") ∅ (start healthy)
           (world healthy [EvAuthenticate (Some "session-of-alice")])
           (world healthy [EvAuthenticate (Some "session-of-alice")])
           {| req_method := POST; req_path := ["send"];
              req_token := Some "session-of-alice"; req_body := ∅;
              req_params := []; req_user := Some "alice" |}).
  - reflexivity.
  - reflexivity.
Defined.

(** X15 at a body without [senderPrivateKey]. *)
Lemma status_400_witness :
  (res_status missing_fields = 400%Z
   <-> fields_present (send_request body_without_key) = false)
  /\ (fields_present (send_request body_without_key) = false ->
      start healthy = start healthy).
Proof.
  apply (@status_400_iff_field_missing runtime web3 ledger ∅
           (send_request body_without_key) (start healthy) (start healthy)
           missing_fields).
  reflexivity.
Defined.
